(** * Billing entry points of [corporate/views/upgrade.py]

    A shallow embedding of the three Django views [upgrade],
    [initial_upgrade] and [sponsorship], followed by the properties that
    the specification states about them.

    Python values are represented as follows.
    - [str] is [string], the text in UTF-8; [int] is [Z];
      [Optional[T]] is [option T]; a [float] is the rational it denotes.
    - An exception is a value of [Exn]; a call that may raise returns a
      [Result].
    - A view runs in the monad [M]: it threads a [World] (the relational
      store, the in-memory [user.realm] object and the sequence of calls
      the view has issued to the outside) and may raise.
    - [with transaction.atomic():] is [atomic]: the store is restored to
      the state at entry when the block raises. *)

From Stdlib Require Import ZArith QArith Ascii String List Bool Lia.
From stdpp Require Import base option list strings gmap pretty.

Local Open Scope Z_scope.

(* ===================================================================== *)
(** * Exceptions and results *)
(* ===================================================================== *)

(** How a request variable failed [has_request_variables]. *)
Inductive ParamFault :=
  | MissingVariable
  | InvalidValue.

(** The exceptions the views can see.  Every constructor stands for a
    subclass of Python's [Exception].  [BillingError] carries
    [error_description] and the user-facing [message], in the order of
    its constructor's arguments. *)
Inductive Exn :=
  | BillingError (error_description message : string)
  | ValidationError (var_name : string) (fault : ParamFault)
  | DatabaseError (detail : string)
  | OtherException (detail : string).

Definition is_billing_error (e : Exn) : bool :=
  match e with
  | BillingError _ _ => true
  | _ => false
  end.

Inductive Result (A : Type) :=
  | Return (a : A)
  | Raise (e : Exn).
Arguments Return {A} a.
Arguments Raise {A} e.

Definition raised {A} (r : Result A) : bool :=
  match r with
  | Return _ => false
  | Raise _ => true
  end.

(* ===================================================================== *)
(** * Data model *)
(* ===================================================================== *)

(** [zerver.models.Realm], the columns the views touch. *)
Record Realm := mkRealm {
  realm_id : Z;
  string_id : string;
  org_type : Z;
  plan_type : Z;
  demo_organization_scheduled_deletion_date : option Z
}.

Definition set_org_type (v : Z) (r : Realm) : Realm :=
  {| realm_id := realm_id r;
     string_id := string_id r;
     org_type := v;
     plan_type := plan_type r;
     demo_organization_scheduled_deletion_date :=
       demo_organization_scheduled_deletion_date r |}.

(** [zerver.models.UserProfile].  The object [user.realm] is mutable and
    lives in the [World] ([realm_obj]). *)
Record UserProfile := mkUser {
  user_id : Z;
  user_realm_id : Z;
  full_name : string;
  delivery_email : string;
  is_guest : bool
}.

(** [corporate.models.Customer]. *)
Record Customer := mkCustomer {
  customer_id : Z;
  sponsorship_pending : bool;
  default_discount : option Q;
  exempt_from_license_number_check : bool
}.

(** [corporate.models.ZulipSponsorshipRequest]; [realm] and
    [requested_by] are foreign keys. *)
Record ZulipSponsorshipRequest := mkSponsorshipRequest {
  sr_realm : Z;
  sr_requested_by : Z;
  org_website : string;
  org_description : string;
  sr_org_type : Z;
  sr_expected_total_users : string;
  sr_paid_users_count : string;
  sr_paid_users_description : string
}.

(** [corporate.lib.stripe.UpgradeRequest]. *)
Record UpgradeRequest := mkUpgradeRequest {
  ur_billing_modality : string;
  ur_schedule : string;
  ur_signed_seat_count : string;
  ur_salt : string;
  ur_onboarding : bool;
  ur_license_management : option string;
  ur_licenses : option Z
}.

(** The relational store. *)
Record DB := mkDB {
  sponsorship_requests : list ZulipSponsorshipRequest;
  realms : gmap Z Realm;
  customers : gmap Z Customer;
  current_plans : gmap Z Z;
  billing_admins : gset Z
}.

(** The context handed to the [zerver/emails/sponsorship_request]
    template. *)
Record SponsorshipContext := mkSponsorshipContext {
  ctx_requested_by : string;
  ctx_user_role : string;
  ctx_string_id : string;
  ctx_support_url : string;
  ctx_organization_type : string;
  ctx_website : string;
  ctx_description : string;
  ctx_expected_total_users : string;
  ctx_paid_users_count : string;
  ctx_paid_users_description : string
}.

Record Email := mkEmail {
  template_prefix : string;
  to_emails : list string;
  from_name : string;
  from_address : string;
  reply_to_email : string;
  email_context : SponsorshipContext
}.

Inductive LogLevel := WARNING | ERROR.

Inductive LogArg :=
  | ArgStr (s : string)
  | ArgInt (n : Z)
  | ArgOptStr (s : option string)
  | ArgOptInt (n : option Z).

(** One call on [billing_logger].  [exc_info] is the exception whose
    traceback the record carries; [stack_info] is the keyword of the
    same name. *)
Record LogRecord := mkLog {
  level : LogLevel;
  msg : string;
  args : list LogArg;
  exc_info : option Exn;
  stack_info : bool
}.

(** The calls a view issues to the outside, in program order. *)
Inductive Event :=
  | EvSaveSponsorshipRequest (row : ZulipSponsorshipRequest)
  | EvSaveRealm (id : Z) (update_fields : list string)
  | EvUpdateCustomerSponsorshipStatus (uid : Z) (pending : bool)
  | EvMakeUserBillingAdmin (uid : Z)
  | EvDoUpgrade (uid : Z) (req : UpgradeRequest)
  | EvAtomicEnter
  | EvAtomicCommit
  | EvAtomicRollback
  | EvSendEmail (m : Email)
  | EvLog (r : LogRecord).

Record World := mkWorld {
  db : DB;
  realm_obj : Realm;
  trace : list Event
}.

Definition with_db (d : DB) (w : World) : World :=
  {| db := d; realm_obj := realm_obj w; trace := trace w |}.

Definition with_realm_obj (r : Realm) (w : World) : World :=
  {| db := db w; realm_obj := r; trace := trace w |}.

Definition emit (ev : Event) (w : World) : World :=
  {| db := db w; realm_obj := realm_obj w; trace := trace w ++ [ev] |}.

(* ===================================================================== *)
(** * The monad of views *)
(* ===================================================================== *)

Definition M (A : Type) : Type := World → Result A * World.

Definition ret {A} (a : A) : M A := λ w, (Return a, w).

Definition raise {A} (e : Exn) : M A := λ w, (Raise e, w).

Definition bind {A B} (m : M A) (k : A → M B) : M B :=
  λ w, match m w with
       | (Return a, w') => k a w'
       | (Raise e, w') => (Raise e, w')
       end.

Notation "'do' x <- m ; k" := (bind m (λ x, k))
  (at level 10, x name, m at level 100, k at level 200, only parsing).
Notation "m ;;; k" := (bind m (λ _, k))
  (at level 100, k at level 200, right associativity, only parsing).

(** [try: body  except Exception as e: handler e]. *)
Definition try_except {A} (body : M A) (handler : Exn → M A) : M A :=
  λ w, match body w with
       | (Return a, w') => (Return a, w')
       | (Raise e, w') => handler e w'
       end.

Definition lift_result {A} (r : Result A) : M A := λ w, (r, w).

Definition get_realm : M Realm := λ w, (Return (realm_obj w), w).

Definition set_realm (r : Realm) : M unit :=
  λ w, (Return tt, with_realm_obj r w).

Definition get_db : M DB := λ w, (Return (db w), w).

(** A call to the outside: it is recorded, then acts on the store. *)
Definition call {A} (ev : Event) (f : DB → Result A * DB) : M A :=
  λ w, let w1 := emit ev w in
       let '(r, d) := f (db w1) in (r, with_db d w1).

Definition note (ev : Event) : M unit := λ w, (Return tt, emit ev w).

(** [with transaction.atomic(): body].  When [body] raises, the store is
    put back to what it was on entry and the exception propagates;
    objects in memory and calls already issued are not undone. *)
Definition atomic {A} (body : M A) : M A :=
  λ w, match body (emit EvAtomicEnter w) with
       | (Return a, w') => (Return a, emit EvAtomicCommit w')
       | (Raise e, w') => (Raise e, emit EvAtomicRollback (with_db (db w) w'))
       end.

(* ===================================================================== *)
(** * Settings and collaborators *)
(* ===================================================================== *)

(** [django.conf.settings], the entries the views read. *)
Record Settings := mkSettings {
  BILLING_ENABLED : bool;
  ZULIP_ADMINISTRATOR : string;
  FREE_TRIAL_DAYS : option Z
}.

Definition Payload := list (string * string).

(** [corporate.lib.stripe.RealmBillingSession]. *)
Record RealmBillingSession := mkSession { session_user : UserProfile }.

(** What the views import from the rest of the code base and from
    Django.  The views are verified for every value of this record.
    Functions that write act on the store and may raise after having
    written; readers take the store as an argument. *)
Record Collaborators := mkCollaborators {
  (* corporate.lib.stripe *)
  CONTACT_SUPPORT_format : string → string;
  do_upgrade : RealmBillingSession → UpgradeRequest → DB → Result Payload * DB;
  update_customer_sponsorship_status :
    RealmBillingSession → bool → DB → Result unit * DB;
  get_latest_seat_count : DB → Realm → Z;
  sign_string : string → string * string;
  MIN_INVOICED_LICENSES : Z;
  DEFAULT_INVOICE_DAYS_UNTIL_DUE : Z;
  (* corporate.models *)
  MAX_ORG_URL_LENGTH : nat;
  get_customer_by_realm : DB → Realm → option Customer;
  get_current_plan_by_customer : DB → Customer → option Z;
  (* corporate.lib.support, zerver *)
  get_support_url : Realm → string;
  do_make_user_billing_admin : UserProfile → DB → Result unit * DB;
  get_org_type_display_name : Z → string;
  get_role_name : UserProfile → string;
  PLAN_TYPE_STANDARD_FREE : Z;
  FromAddress_SUPPORT : string;
  tokenized_no_reply_address : string;
  (* zerver.lib.send_email.send_email: [None] when the message is handed
     over, [Some e] when sending raises [e] *)
  send_email_outcome : Email → option Exn;
  (* zerver.lib.validator, applied to the JSON text of a parameter *)
  check_bool : string → option bool;
  check_int : string → option Z;
  (* reverse("sponsorship_request"), reverse(billing_home) *)
  sponsorship_request_url : string;
  billing_home_url : string;
  (* the store's own checks on a new request row and on org_type *)
  store_accepts_request : ZulipSponsorshipRequest → bool;
  store_accepts_org_type : Z → bool;
  (* [float(d)] for a Decimal [d]: the float nearest to it *)
  py_float : Q → Q;
  (* django.forms: [str.strip()], the [int(...)] of IntegerField.to_python
     ([None] when it raises), the split-and-rebuild of URLField.to_python
     ([None] when it raises) and URLValidator *)
  py_strip : string → string;
  py_int : string → option Z;
  url_to_python : string → option string;
  url_validator : string → bool
}.

(* ===================================================================== *)
(** * Request variables *)
(* ===================================================================== *)

(** [django.http.HttpRequest]: the form body and the query string. *)
Record HttpRequest := mkRequest {
  POST : gmap string string;
  GET : gmap string string
}.

(** Modelled from the spec: the billing-modality enumeration of
    section 3 ([corporate.lib.stripe] is missing). *)
Definition VALID_BILLING_MODALITY_VALUES : list string :=
  ["charge_automatically"; "send_invoice"].

(** Modelled from the spec: the schedule enumeration of section 3
    ([corporate.lib.stripe] is missing). *)
Definition VALID_BILLING_SCHEDULE_VALUES : list string :=
  ["monthly"; "annual"].

(** Modelled from the spec: the license-management enumeration of
    section 3 ([corporate.lib.stripe] is missing). *)
Definition VALID_LICENSE_MANAGEMENT_VALUES : list string :=
  ["automatic"; "manual"].

(** Modelled from the spec: [zerver.lib.validator.check_string_in] is
    missing.  Section 4.2: a value outside the enumeration fails with a
    validation error naming the offending field. *)
Definition check_string_in (possible_values : list string)
    (var_name val : string) : Result string :=
  if bool_decide (val ∈ possible_values) then Return val
  else Raise (ValidationError var_name InvalidValue).

(** Modelled from the spec: [zerver.lib.request] ([REQ],
    [has_request_variables]) is missing.  Section 6 reads a variable
    declared without a default as required and one with a default as
    optional, and takes variables from the form body or the query
    string. *)
Definition request_var (request : HttpRequest) (var_name : string)
    : option string :=
  match POST request !! var_name with
  | Some v => Some v
  | None => GET request !! var_name
  end.

(** Modelled from the spec: [REQ(...)] without [default]. *)
Definition REQ_required {A} (var_name : string)
    (validator : string → string → Result A) (request : HttpRequest)
    : Result A :=
  match request_var request var_name with
  | None => Raise (ValidationError var_name MissingVariable)
  | Some v => validator var_name v
  end.

(** Modelled from the spec: [REQ(default=d, ...)]. *)
Definition REQ_default {A} (var_name : string) (d : A)
    (validator : string → string → Result A) (request : HttpRequest)
    : Result A :=
  match request_var request var_name with
  | None => Return d
  | Some v => validator var_name v
  end.

(** Modelled from the spec: [REQ()] with no validator passes the text
    through (section 4.2, item 4). *)
Definition no_validator (var_name val : string) : Result string := Return val.

(** Modelled from the spec: [REQ(json_validator=check)]; a payload of
    the wrong shape fails with a validation error naming the field. *)
Definition json_validator {A} (check : string → option A)
    (var_name val : string) : Result A :=
  match check val with
  | Some a => Return a
  | None => Raise (ValidationError var_name InvalidValue)
  end.

(** A validator whose result fills an [Optional] parameter. *)
Definition optional {A} (validator : string → string → Result A)
    (var_name val : string) : Result (option A) :=
  match validator var_name val with
  | Return a => Return (Some a)
  | Raise e => Raise e
  end.

(* ===================================================================== *)
(** * Responses *)
(* ===================================================================== *)

Record PageParams := mkPageParams {
  pp_seat_count : Z;
  annual_price : Z;
  monthly_price : Z;
  percent_off : Q;
  pp_demo_organization_scheduled_deletion_date : option Z
}.

(** The context of [corporate/upgrade.html]. *)
Record UpgradeContext := mkUpgradeContext {
  uc_realm : Realm;
  uc_email : string;
  uc_seat_count : Z;
  uc_signed_seat_count : string;
  uc_salt : string;
  min_invoiced_licenses : Z;
  default_invoice_days_until_due : Z;
  uc_exempt_from_license_number_check : bool;
  plan : string;
  free_trial_days : option Z;
  uc_onboarding : bool;
  page_params : PageParams;
  is_demo_organization : bool;
  manual_license_management : bool
}.

Inductive HttpResponse :=
  | json_success (data : Payload)
  | render (template : string) (context : option UpgradeContext) (status : Z)
  | HttpResponseRedirect (url : string).

(* ===================================================================== *)
(** * Django forms *)
(* ===================================================================== *)

(** The outcome of [Field.clean]: the cleaned value, or the messages of
    the [ValidationError] it raised. *)
Inductive Cleaned (A : Type) :=
  | Clean (a : A)
  | Errors (messages : list string).
Arguments Clean {A} a.
Arguments Errors {A} messages.

(** [sep.join(parts)]. *)
Fixpoint join (sep : string) (parts : list string) : string :=
  match parts with
  | [] => ""
  | [p] => p
  | p :: rest => p +:+ sep +:+ join sep rest
  end.

Fixpoint has_null_character (s : string) : bool :=
  match s with
  | EmptyString => false
  | String c rest => Ascii.eqb c Ascii.zero || has_null_character rest
  end.

Definition msg_required : string := "This field is required.".
Definition msg_invalid_url : string := "Enter a valid URL.".
Definition msg_invalid_integer : string := "Enter a whole number.".
Definition msg_null_characters : string := "Null characters are not allowed.".

(** A byte of the form 10xxxxxx, which continues a character. *)
Definition is_continuation (c : ascii) : bool :=
  let n := nat_of_ascii c in Nat.leb 128 n && Nat.ltb n 192.

(** [len(s)]: the number of characters of the text, one for each byte
    that does not continue a character. *)
Fixpoint py_len (s : string) : nat :=
  match s with
  | EmptyString => O
  | String c rest =>
      if is_continuation c then py_len rest else S (py_len rest)
  end.

(** The message of [MaxLengthValidator], with its parameters filled in. *)
Definition msg_max_length (limit_value show_value : nat) : string :=
  "Ensure this value has at most " +:+ pretty limit_value +:+
  (if Nat.eqb limit_value 1 then " character" else " characters") +:+
  " (it has " +:+ pretty show_value +:+ ").".

Definition MaxLengthValidator (limit_value : nat) (value : string)
    : list string :=
  if Nat.ltb limit_value (py_len value)
  then [msg_max_length limit_value (py_len value)] else [].

Definition ProhibitNullCharactersValidator (value : string) : list string :=
  if has_null_character value then [msg_null_characters] else [].

(** [Field.run_validators]: every validator runs and the messages of
    all that fail are collected. *)
Definition run_validators (validators : list (string → list string))
    (value : string) : list string :=
  flat_map (λ v, v value) validators.

(** [Field.clean] for a field whose raw value is a string:
    [to_python], then [validate] (the [required] check on an empty
    value), then [run_validators] (skipped on an empty value). *)
Definition Field_clean (required : bool)
    (to_python : option string → Cleaned string)
    (validators : list (string → list string))
    (value : option string) : Cleaned string :=
  match to_python value with
  | Errors messages => Errors messages
  | Clean value =>
      if String.eqb value "" then
        if required then Errors [msg_required] else Clean value
      else
        match run_validators validators value with
        | [] => Clean value
        | errors => Errors errors
        end
  end.

Section Views.
Context (settings : Settings) (ext : Collaborators).

(** [CharField.to_python] with [strip=True] and [empty_value=""]. *)
Definition CharField_to_python (value : option string) : string :=
  match value with
  | None => ""
  | Some s => if String.eqb s "" then "" else py_strip ext s
  end.

(** [forms.CharField(required=...)]: its [clean]. *)
Definition CharField (required : bool) : option string → Cleaned string :=
  Field_clean required (λ value, Clean (CharField_to_python value))
    [ProhibitNullCharactersValidator].

Definition URLValidator (value : string) : list string :=
  if url_validator ext value then [] else [msg_invalid_url].

(** [URLField.to_python]: the stripped text, split and put together
    again when it is not empty. *)
Definition URLField_to_python (value : option string) : Cleaned string :=
  let value := CharField_to_python value in
  if String.eqb value "" then Clean value
  else
    match url_to_python ext value with
    | Some value => Clean value
    | None => Errors [msg_invalid_url]
    end.

(** [forms.URLField(max_length=..., required=...)]: its [clean]. *)
Definition URLField (max_length : nat) (required : bool)
    : option string → Cleaned string :=
  Field_clean required URLField_to_python
    [URLValidator; MaxLengthValidator max_length;
     ProhibitNullCharactersValidator].

(** [forms.IntegerField()]: its [clean], for the default
    [required=True] and no bounds. *)
Definition IntegerField (value : option string) : Cleaned Z :=
  match value with
  | None => Errors [msg_required]
  | Some s =>
      if String.eqb s "" then Errors [msg_required]
      else
        match py_int ext s with
        | Some n => Clean n
        | None => Errors [msg_invalid_integer]
        end
  end.

(** [SponsorshipRequestForm(data)] after [full_clean]: one outcome per
    declared field. *)
Record BoundForm := mkForm {
  f_website : Cleaned string;
  f_organization_type : Cleaned Z;
  f_description : Cleaned string;
  f_expected_total_users : Cleaned string;
  f_paid_users_count : Cleaned string;
  f_paid_users_description : Cleaned string
}.

Definition SponsorshipRequestForm (data : gmap string string) : BoundForm :=
  {| f_website :=
       URLField (MAX_ORG_URL_LENGTH ext) false (data !! "website");
     f_organization_type := IntegerField (data !! "organization_type");
     f_description := CharField true (data !! "description");
     f_expected_total_users :=
       CharField true (data !! "expected_total_users");
     f_paid_users_count := CharField true (data !! "paid_users_count");
     f_paid_users_description :=
       CharField false (data !! "paid_users_description") |}.

Definition error_list {A} (c : Cleaned A) : list string :=
  match c with
  | Clean _ => []
  | Errors messages => messages
  end.

Definition field_errors {A} (name : string) (c : Cleaned A)
    : list (string * list string) :=
  match c with
  | Clean _ => []
  | Errors messages => [(name, messages)]
  end.

(** [form.errors.get_json_data()]: the fields that failed, in the order
    of declaration, each with its messages. *)
Definition errors (form : BoundForm) : list (string * list string) :=
  field_errors "website" (f_website form) ++
  field_errors "organization_type" (f_organization_type form) ++
  field_errors "description" (f_description form) ++
  field_errors "expected_total_users" (f_expected_total_users form) ++
  field_errors "paid_users_count" (f_paid_users_count form) ++
  field_errors "paid_users_description" (f_paid_users_description form).

Record CleanedData := mkCleaned {
  cd_website : string;
  cd_organization_type : Z;
  cd_description : string;
  cd_expected_total_users : string;
  cd_paid_users_count : string;
  cd_paid_users_description : string
}.

(** [form.cleaned_data] when [form.is_valid()], [None] otherwise. *)
Definition cleaned_data (form : BoundForm) : option CleanedData :=
  match f_website form, f_organization_type form, f_description form,
        f_expected_total_users form, f_paid_users_count form,
        f_paid_users_description form with
  | Clean w, Clean t, Clean d, Clean e, Clean c, Clean p =>
      Some (mkCleaned w t d e c p)
  | _, _, _, _, _, _ => None
  end.

Definition is_valid (form : BoundForm) : bool :=
  match errors form with
  | [] => true
  | _ => false
  end.

(* ===================================================================== *)
(** * upgrade *)
(* ===================================================================== *)

Definition billing_logger_warning (msg : string) (args : list LogArg)
    : M unit :=
  note (EvLog {| level := WARNING; msg := msg; args := args;
                 exc_info := None; stack_info := false |}).

(** [billing_logger.exception(msg, stack_info=...)] inside the handler
    of [current]: level ERROR, with the traceback of [current]. *)
Definition billing_logger_exception (current : Exn) (msg : string)
    (stack_info : bool) : M unit :=
  note (EvLog {| level := ERROR; msg := msg; args := [];
                 exc_info := Some current; stack_info := stack_info |}).

(** The body of [upgrade], with its parameters already extracted. *)
Definition upgrade_view (user : UserProfile)
    (billing_modality schedule signed_seat_count salt : string)
    (onboarding : bool) (license_management : option string)
    (licenses : option Z) : M HttpResponse :=
  try_except
    (let upgrade_request :=
       {| ur_billing_modality := billing_modality;
          ur_schedule := schedule;
          ur_signed_seat_count := signed_seat_count;
          ur_salt := salt;
          ur_onboarding := onboarding;
          ur_license_management := license_management;
          ur_licenses := licenses |} in
     let billing_session := mkSession user in
     do data <- call (EvDoUpgrade (user_id user) upgrade_request)
                  (do_upgrade ext billing_session upgrade_request);
     ret (json_success data))
    (λ e,
       match e with
       | BillingError error_description _ =>
           do realm <- get_realm;
           billing_logger_warning
             ("BillingError during upgrade: %s. user=%s, realm=%s (%s), billing_modality=%s, "
              +:+ "schedule=%s, license_management=%s, licenses=%s")
             [ArgStr error_description; ArgInt (user_id user);
              ArgInt (realm_id realm); ArgStr (string_id realm);
              ArgStr billing_modality; ArgStr schedule;
              ArgOptStr license_management; ArgOptInt licenses] ;;;
           raise e
       | _ =>
           billing_logger_exception e "Uncaught exception in billing:" true ;;;
           let error_message :=
             CONTACT_SUPPORT_format ext (ZULIP_ADMINISTRATOR settings) in
           let error_description := "uncaught exception during upgrade" in
           raise (BillingError error_description error_message)
       end).

(** [upgrade] as exported: [has_request_variables] extracts and
    validates the variables in the order of declaration, then runs the
    body for a member [user] of the organization. *)
Definition upgrade (request : HttpRequest) (user : UserProfile)
    : M HttpResponse :=
  do billing_modality <-
    lift_result (REQ_required "billing_modality"
                   (check_string_in VALID_BILLING_MODALITY_VALUES) request);
  do schedule <-
    lift_result (REQ_required "schedule"
                   (check_string_in VALID_BILLING_SCHEDULE_VALUES) request);
  do signed_seat_count <-
    lift_result (REQ_required "signed_seat_count" no_validator request);
  do salt <- lift_result (REQ_required "salt" no_validator request);
  do onboarding <-
    lift_result (REQ_default "onboarding" false
                   (json_validator (check_bool ext)) request);
  do license_management <-
    lift_result (REQ_default "license_management" None
                   (optional (check_string_in VALID_LICENSE_MANAGEMENT_VALUES))
                   request);
  do licenses <-
    lift_result (REQ_default "licenses" None
                   (optional (json_validator (check_int ext))) request);
  upgrade_view user billing_modality schedule signed_seat_count salt
    onboarding license_management licenses.

(* ===================================================================== *)
(** * initial_upgrade *)
(* ===================================================================== *)

(** [customer is not None and p(customer)]. *)
Definition customer_and (customer : option Customer) (p : Customer → bool)
    : bool :=
  match customer with
  | Some c => p c
  | None => false
  end.

(** [initial_upgrade], for the logged-in [user] (the [assert] holds
    behind [zulip_login_required]) and the two flags that
    [has_request_variables] extracted. *)
Definition initial_upgrade (user : UserProfile)
    (onboarding manual_license_management : bool) : M HttpResponse :=
  do realm <- get_realm;
  do store <- get_db;
  if negb (BILLING_ENABLED settings) || is_guest user then
    ret (render "404.html" None 404)
  else
    let customer := get_customer_by_realm ext store realm in
    if customer_and customer sponsorship_pending
       || (plan_type realm =? PLAN_TYPE_STANDARD_FREE ext) then
      ret (HttpResponseRedirect (sponsorship_request_url ext))
    else
      let billing_page_url := billing_home_url ext in
      if customer_and customer
           (λ c, bool_decide (is_Some (get_current_plan_by_customer ext store c))
                 || onboarding) then
        let billing_page_url :=
          if onboarding then billing_page_url +:+ "?onboarding=true"
          else billing_page_url in
        ret (HttpResponseRedirect billing_page_url)
      else
        let percent_off :=
          match customer with
          | Some c => match default_discount c with
                      | Some d => d
                      | None => 0%Q
                      end
          | None => 0%Q
          end in
        let exempt_from_license_number_check :=
          customer_and customer exempt_from_license_number_check in
        let seat_count := get_latest_seat_count ext store realm in
        let '(signed_seat_count, salt) := sign_string ext (pretty seat_count) in
        let context :=
          {| uc_realm := realm;
             uc_email := delivery_email user;
             uc_seat_count := seat_count;
             uc_signed_seat_count := signed_seat_count;
             uc_salt := salt;
             min_invoiced_licenses :=
               Z.max seat_count (MIN_INVOICED_LICENSES ext);
             default_invoice_days_until_due :=
               DEFAULT_INVOICE_DAYS_UNTIL_DUE ext;
             uc_exempt_from_license_number_check :=
               exempt_from_license_number_check;
             plan := "Zulip Cloud Standard";
             free_trial_days := FREE_TRIAL_DAYS settings;
             uc_onboarding := onboarding;
             page_params :=
               {| pp_seat_count := seat_count;
                  annual_price := 8000;
                  monthly_price := 800;
                  percent_off := py_float ext percent_off;
                  pp_demo_organization_scheduled_deletion_date :=
                    demo_organization_scheduled_deletion_date realm |};
             is_demo_organization :=
               bool_decide
                 (is_Some (demo_organization_scheduled_deletion_date realm));
             manual_license_management := manual_license_management |} in
        ret (render "corporate/upgrade.html" (Some context) 200).

(* ===================================================================== *)
(** * sponsorship *)
(* ===================================================================== *)

(** [sponsorship_request.save()]: one INSERT, refused when the store
    rejects the row. *)
Definition save_sponsorship_request (row : ZulipSponsorshipRequest)
    : M unit :=
  call (EvSaveSponsorshipRequest row)
    (λ d, if store_accepts_request ext row then
            (Return tt,
             {| sponsorship_requests := sponsorship_requests d ++ [row];
                realms := realms d;
                customers := customers d;
                current_plans := current_plans d;
                billing_admins := billing_admins d |})
          else (Raise (DatabaseError "sponsorship request rejected"), d)).

(** What [save(update_fields=...)] copies from the object to its row. *)
Definition copy_column (obj : Realm) (row : Realm) (column : string)
    : Realm :=
  if String.eqb column "org_type" then set_org_type (org_type obj) row
  else if String.eqb column "string_id" then
    {| realm_id := realm_id row; string_id := string_id obj;
       org_type := org_type row; plan_type := plan_type row;
       demo_organization_scheduled_deletion_date :=
         demo_organization_scheduled_deletion_date row |}
  else if String.eqb column "plan_type" then
    {| realm_id := realm_id row; string_id := string_id row;
       org_type := org_type row; plan_type := plan_type obj;
       demo_organization_scheduled_deletion_date :=
         demo_organization_scheduled_deletion_date row |}
  else if String.eqb column "demo_organization_scheduled_deletion_date" then
    {| realm_id := realm_id row; string_id := string_id row;
       org_type := org_type row; plan_type := plan_type row;
       demo_organization_scheduled_deletion_date :=
         demo_organization_scheduled_deletion_date obj |}
  else row.

(** [realm.save(update_fields=...)]: one UPDATE of the listed columns of
    the row whose key is [realm.id]; it raises when no such row exists
    or the store rejects the new [org_type]. *)
Definition save_realm (update_fields : list string) : M unit :=
  do realm <- get_realm;
  call (EvSaveRealm (realm_id realm) update_fields)
    (λ d, match realms d !! realm_id realm with
          | None =>
              (Raise (DatabaseError
                        "Save with update_fields did not affect any rows."), d)
          | Some row =>
              if store_accepts_org_type ext (org_type realm) then
                (Return tt,
                 {| sponsorship_requests := sponsorship_requests d;
                    realms := <[realm_id realm :=
                                  foldl (copy_column realm) row update_fields]>
                                (realms d);
                    customers := customers d;
                    current_plans := current_plans d;
                    billing_admins := billing_admins d |})
              else (Raise (DatabaseError "org_type out of range"), d)
          end).

(** [send_email(...)]: the call is issued, and raises when the mail
    system does. *)
Definition send_email (m : Email) : M unit :=
  λ w, match send_email_outcome ext m with
       | None => (Return tt, emit (EvSendEmail m) w)
       | Some e => (Raise e, emit (EvSendEmail m) w)
       end.

(** [ZulipSponsorshipRequest(realm=realm, requested_by=user,
    org_website=form.cleaned_data["website"], ...)]. *)
Definition new_sponsorship_request (realm : Realm) (user : UserProfile)
    (cleaned : CleanedData) : ZulipSponsorshipRequest :=
  {| sr_realm := realm_id realm;
     sr_requested_by := user_id user;
     org_website := cd_website cleaned;
     org_description := cd_description cleaned;
     sr_org_type := cd_organization_type cleaned;
     sr_expected_total_users := cd_expected_total_users cleaned;
     sr_paid_users_count := cd_paid_users_count cleaned;
     sr_paid_users_description := cd_paid_users_description cleaned |}.

(** The statements under [with transaction.atomic():]; the value is
    [org_type_display_name]. *)
Definition sponsorship_transaction (user : UserProfile)
    (billing_session : RealmBillingSession) (cleaned : CleanedData)
    : M string :=
  do realm <- get_realm;
  let sponsorship_request := new_sponsorship_request realm user cleaned in
  save_sponsorship_request sponsorship_request ;;;
  let org_type' := cd_organization_type cleaned in
  (if negb (org_type realm =? org_type') then
     set_realm (set_org_type org_type' realm) ;;;
     save_realm ["org_type"]
   else ret tt) ;;;
  call (EvUpdateCustomerSponsorshipStatus (user_id user) true)
    (update_customer_sponsorship_status ext billing_session true) ;;;
  call (EvMakeUserBillingAdmin (user_id user))
    (do_make_user_billing_admin ext user) ;;;
  ret (get_org_type_display_name ext org_type').

(** [" ".join(error["message"] for error_list in ... for error in
    error_list)]. *)
Definition combined_message (form : BoundForm) : string :=
  join " " (flat_map snd (errors form)).

(** The body of [sponsorship], with its parameters already extracted. *)
Definition sponsorship_view (request : HttpRequest) (user : UserProfile)
    (organization_type website description expected_total_users
     paid_users_count paid_users_description : string) : M HttpResponse :=
  do realm <- get_realm;
  let billing_session := mkSession user in
  let requested_by := full_name user in
  let user_role := get_role_name ext user in
  let support_url := get_support_url ext realm in
  let post_data := <["organization_type" := organization_type]> (POST request) in
  let form := SponsorshipRequestForm post_data in
  match cleaned_data form with
  | Some cleaned =>
      do org_type_display_name <-
        atomic (sponsorship_transaction user billing_session cleaned);
      do realm <- get_realm;
      let context :=
        {| ctx_requested_by := requested_by;
           ctx_user_role := user_role;
           ctx_string_id := string_id realm;
           ctx_support_url := support_url;
           ctx_organization_type := org_type_display_name;
           ctx_website := website;
           ctx_description := description;
           ctx_expected_total_users := expected_total_users;
           ctx_paid_users_count := paid_users_count;
           ctx_paid_users_description := paid_users_description |} in
      send_email
        {| template_prefix := "zerver/emails/sponsorship_request";
           to_emails := [FromAddress_SUPPORT ext];
           from_name := "Zulip sponsorship";
           from_address := tokenized_no_reply_address ext;
           reply_to_email := delivery_email user;
           email_context := context |} ;;;
      ret (json_success [])
  | None =>
      let message := combined_message form in
      raise (BillingError "Form validation error" message)
  end.

(** [sponsorship] as exported: the six variables are extracted by
    [has_request_variables], all declared without a default. *)
Definition sponsorship (request : HttpRequest) (user : UserProfile)
    : M HttpResponse :=
  do organization_type <-
    lift_result (REQ_required "organization-type" no_validator request);
  do website <- lift_result (REQ_required "website" no_validator request);
  do description <-
    lift_result (REQ_required "description" no_validator request);
  do expected_total_users <-
    lift_result (REQ_required "expected_total_users" no_validator request);
  do paid_users_count <-
    lift_result (REQ_required "paid_users_count" no_validator request);
  do paid_users_description <-
    lift_result (REQ_required "paid_users_description" no_validator request);
  sponsorship_view request user organization_type website description
    expected_total_users paid_users_count paid_users_description.

End Views.

(* ===================================================================== *)
(** * Reading the trace *)
(* ===================================================================== *)

(** The messages handed to [send_email], oldest first. *)
Definition emails (t : list Event) : list Email :=
  omap (λ ev, match ev with EvSendEmail m => Some m | _ => None end) t.

(** The [realm.save(update_fields=...)] calls, oldest first. *)
Definition realm_saves (t : list Event) : list (Z * list string) :=
  omap (λ ev, match ev with
              | EvSaveRealm id fields => Some (id, fields)
              | _ => None
              end) t.

(** The rows handed to [sponsorship_request.save()], oldest first. *)
Definition request_saves (t : list Event) : list ZulipSponsorshipRequest :=
  omap (λ ev, match ev with
              | EvSaveSponsorshipRequest row => Some row
              | _ => None
              end) t.

(** The calls of the billing back-end's [do_upgrade], oldest first. *)
Definition upgrade_calls (t : list Event) : list UpgradeRequest :=
  omap (λ ev, match ev with EvDoUpgrade _ req => Some req | _ => None end) t.

(** The records written to [billing_logger], oldest first. *)
Definition log_records (t : list Event) : list LogRecord :=
  omap (λ ev, match ev with EvLog r => Some r | _ => None end) t.

(** [m] occurs in [s] as a contiguous piece. *)
Definition substring (m s : string) : Prop :=
  ∃ before after, s = before +:+ m +:+ after.

(** [f] leaves the part [table] of the store as it found it, whether it
    returns or raises. *)
Definition preserves {A B} (table : DB → A) (f : DB → Result B * DB)
    : Prop :=
  ∀ d, table (snd (f d)) = table d.

(** A raw form value that [CharField.to_python] turns into the empty
    string: the key is absent, the text is empty, or stripping leaves
    nothing. *)
Definition is_blank (ext : Collaborators) (value : option string) : Prop :=
  value = None ∨ value = Some ""
  ∨ ∃ s, value = Some s ∧ py_strip ext s = "".

(** A list of messages whose first one is not the empty text. *)
Definition starts_nonempty (messages : list string) : Prop :=
  ∃ p rest, messages = p :: rest ∧ p ≠ "".

(* ===================================================================== *)
(** * An instance of the collaborators *)
(* ===================================================================== *)

(** The instance runs the views on concrete requests.  The two writers
    follow section 4.3 of the specification: the first marks the
    customer of the organization as sponsorship-pending, the second
    grants the billing-administrator capability.  [grant] and [mail]
    let the permission grant and the mail system fail; [upgrade_result]
    is what the billing back-end answers. *)
Module Demo.

(** [str.isspace] on the ASCII range. *)
Definition is_space (c : ascii) : bool :=
  let n := nat_of_ascii c in
  (Nat.leb 9 n && Nat.leb n 13) || (Nat.leb 28 n && Nat.leb n 32).

Fixpoint lstrip (s : string) : string :=
  match s with
  | String c rest => if is_space c then lstrip rest else s
  | EmptyString => EmptyString
  end.

Definition strip (s : string) : string :=
  String.rev (lstrip (String.rev (lstrip s))).

Definition digit (c : ascii) : option Z :=
  let n := nat_of_ascii c in
  if Nat.leb 48 n && Nat.leb n 57 then Some (Z.of_nat n - 48) else None.

Fixpoint digits (acc : Z) (s : string) : option Z :=
  match s with
  | EmptyString => Some acc
  | String c rest =>
      match digit c with
      | Some d => digits (10 * acc + d) rest
      | None => None
      end
  end.

(** Plain decimal numerals with an optional sign, blanks around them
    ignored. *)
Definition parse_int (s : string) : option Z :=
  match strip s with
  | EmptyString => None
  | String "-" rest =>
      match rest with
      | EmptyString => None
      | _ => Z.opp <$> digits 0 rest
      end
  | String "+" rest =>
      match rest with
      | EmptyString => None
      | _ => digits 0 rest
      end
  | t => digits 0 t
  end.

Definition parse_bool (s : string) : option bool :=
  if String.eqb s "true" then Some true
  else if String.eqb s "false" then Some false else None.

(** [n / d] rounded to the nearest integer, ties to even, for [0 ≤ n]
    and [0 < d]. *)
Definition round_half_even (n d : Z) : Z :=
  let q := n / d in
  let r := n mod d in
  if 2 * r <? d then q
  else if d <? 2 * r then q + 1
  else if Z.even q then q else q + 1.

(** The binary64 number nearest to [x], for [x] in the normal range: a
    significand of 53 bits, ties to even. *)
Definition binary64 (x : Q) : Q :=
  let n := Qnum x in
  let d := Z.pos (Qden x) in
  if n =? 0 then 0%Q
  else
    let a := Z.abs n in
    let scaled (e : Z) : Z * Z :=
      if 0 <=? e then (a, d * 2 ^ e) else (a * 2 ^ (- e), d) in
    let e0 := Z.log2 a - Z.log2 d - 52 in
    let e := if fst (scaled e0) / snd (scaled e0) <? 2 ^ 52
             then e0 - 1 else e0 in
    let m := round_half_even (fst (scaled e)) (snd (scaled e)) in
    let v := if 0 <=? e then (m * 2 ^ e # 1)%Q
             else (m # Z.to_pos (2 ^ (- e)))%Q in
    Qred (if n <? 0 then Qopp v else v).

Definition has_scheme (s : string) : bool :=
  String.prefix "http://" s || String.prefix "https://" s.

Definition mark_pending (session : RealmBillingSession) (pending : bool)
    (d : DB) : Result unit * DB :=
  let rid := user_realm_id (session_user session) in
  let c :=
    match customers d !! rid with
    | Some c =>
        {| customer_id := customer_id c; sponsorship_pending := pending;
           default_discount := default_discount c;
           exempt_from_license_number_check :=
             exempt_from_license_number_check c |}
    | None =>
        {| customer_id := rid; sponsorship_pending := pending;
           default_discount := None;
           exempt_from_license_number_check := false |}
    end in
  (Return tt,
   {| sponsorship_requests := sponsorship_requests d;
      realms := realms d;
      customers := <[rid := c]> (customers d);
      current_plans := current_plans d;
      billing_admins := billing_admins d |}).

Definition grant_billing_admin (grant : option Exn) (user : UserProfile)
    (d : DB) : Result unit * DB :=
  let d' :=
    {| sponsorship_requests := sponsorship_requests d;
       realms := realms d;
       customers := customers d;
       current_plans := current_plans d;
       billing_admins := {[user_id user]} ∪ billing_admins d |} in
  match grant with
  | None => (Return tt, d')
  | Some e => (Raise e, d')
  end.

Definition ext (upgrade_result : Result Payload) (grant mail : option Exn)
    : Collaborators :=
  {| CONTACT_SUPPORT_format :=
       λ email, "Something went wrong. Please contact " +:+ email +:+ ".";
     do_upgrade := λ _ _ d, (upgrade_result, d);
     update_customer_sponsorship_status := mark_pending;
     get_latest_seat_count := λ _ _, 7;
     sign_string := λ s, (s +:+ ":signature", "salt");
     MIN_INVOICED_LICENSES := 30;
     DEFAULT_INVOICE_DAYS_UNTIL_DUE := 30;
     MAX_ORG_URL_LENGTH := 200;
     get_customer_by_realm := λ d r, customers d !! realm_id r;
     get_current_plan_by_customer := λ d c, current_plans d !! customer_id c;
     get_support_url := λ r, "https://zulip.example/support?q=" +:+ string_id r;
     do_make_user_billing_admin := grant_billing_admin grant;
     get_org_type_display_name :=
       λ t, if t =? 10 then "Business" else
            if t =? 20 then "Open-source project" else "";
     get_role_name := λ _, "Member";
     PLAN_TYPE_STANDARD_FREE := 4;
     FromAddress_SUPPORT := "support@zulip.example";
     tokenized_no_reply_address := "noreply-token@zulip.example";
     send_email_outcome := λ _, mail;
     check_bool := parse_bool;
     check_int := parse_int;
     sponsorship_request_url := "/sponsorship/";
     billing_home_url := "/billing/";
     store_accepts_request := λ _, true;
     store_accepts_org_type := λ t, (0 <=? t) && (t <=? 32767);
     py_float := binary64;
     py_strip := strip;
     py_int := parse_int;
     url_to_python := λ s, Some (if has_scheme s then s else "http://" +:+ s);
     url_validator := has_scheme |}.

Definition settings : Settings :=
  {| BILLING_ENABLED := true;
     ZULIP_ADMINISTRATOR := "admin@zulip.example";
     FREE_TRIAL_DAYS := None |}.

Definition acme : Realm :=
  {| realm_id := 1; string_id := "acme"; org_type := 10; plan_type := 1;
     demo_organization_scheduled_deletion_date := None |}.

Definition iago : UserProfile :=
  {| user_id := 5; user_realm_id := 1; full_name := "Iago";
     delivery_email := "iago@acme.example"; is_guest := false |}.

Definition store : DB :=
  {| sponsorship_requests := [];
     realms := {[ 1 := acme ]};
     customers := ∅;
     current_plans := ∅;
     billing_admins := ∅ |}.

Definition world : World :=
  {| db := store; realm_obj := acme; trace := [] |}.

(** A complete sponsorship form asking for org_type 20. *)
Definition sponsorship_form : gmap string string :=
  {[ "organization-type" := "20";
     "website" := "  zulip.org ";
     "description" := "A chat project";
     "expected_total_users" := "10";
     "paid_users_count" := "0";
     "paid_users_description" := "" ]}.

Definition post (fields : gmap string string) : HttpRequest :=
  {| POST := fields; GET := ∅ |}.

(** Every collaborator succeeds. *)
Definition healthy : Collaborators := ext (Return [("status", "ok")]) None None.

(** The permission grant raises after having written. *)
Definition grant_fails : Collaborators :=
  ext (Return []) (Some (OtherException "permission grant failed")) None.

(** The billing back-end rejects the upgrade. *)
Definition backend_rejects : Collaborators :=
  ext (Raise (BillingError "not enough licenses"
                "You must invoice for at least 30 users."))
    None None.

(** The billing back-end breaks. *)
Definition backend_breaks : Collaborators :=
  ext (Raise (OtherException "connection reset by peer")) None None.

(** The organization has a customer record without a plan. *)
Definition world_with_customer : World :=
  {| db :=
       {| sponsorship_requests := [];
          realms := {[ 1 := acme ]};
          customers :=
            {[ 1 := {| customer_id := 1; sponsorship_pending := false;
                       default_discount := None;
                       exempt_from_license_number_check := false |} ]};
          current_plans := ∅;
          billing_admins := ∅ |};
     realm_obj := acme;
     trace := [] |}.

(** The customer of the organization waits for a sponsorship. *)
Definition world_pending : World :=
  {| db :=
       {| sponsorship_requests := [];
          realms := {[ 1 := acme ]};
          customers :=
            {[ 1 := {| customer_id := 1; sponsorship_pending := true;
                       default_discount := None;
                       exempt_from_license_number_check := false |} ]};
          current_plans := ∅;
          billing_admins := ∅ |};
     realm_obj := acme;
     trace := [] |}.

Definition guest : UserProfile :=
  {| user_id := 6; user_realm_id := 1; full_name := "Polonius";
     delivery_email := "polonius@acme.example"; is_guest := true |}.

(** The mail system raises. *)
Definition mail_fails : Collaborators :=
  ext (Return []) None (Some (OtherException "mail server unreachable")).

(** [c] with another check of the store on new request rows. *)
Definition with_request_check (accept : ZulipSponsorshipRequest → bool)
    (c : Collaborators) : Collaborators :=
  {| CONTACT_SUPPORT_format := CONTACT_SUPPORT_format c;
     do_upgrade := do_upgrade c;
     update_customer_sponsorship_status :=
       update_customer_sponsorship_status c;
     get_latest_seat_count := get_latest_seat_count c;
     sign_string := sign_string c;
     MIN_INVOICED_LICENSES := MIN_INVOICED_LICENSES c;
     DEFAULT_INVOICE_DAYS_UNTIL_DUE := DEFAULT_INVOICE_DAYS_UNTIL_DUE c;
     MAX_ORG_URL_LENGTH := MAX_ORG_URL_LENGTH c;
     get_customer_by_realm := get_customer_by_realm c;
     get_current_plan_by_customer := get_current_plan_by_customer c;
     get_support_url := get_support_url c;
     do_make_user_billing_admin := do_make_user_billing_admin c;
     get_org_type_display_name := get_org_type_display_name c;
     get_role_name := get_role_name c;
     PLAN_TYPE_STANDARD_FREE := PLAN_TYPE_STANDARD_FREE c;
     FromAddress_SUPPORT := FromAddress_SUPPORT c;
     tokenized_no_reply_address := tokenized_no_reply_address c;
     send_email_outcome := send_email_outcome c;
     check_bool := check_bool c;
     check_int := check_int c;
     sponsorship_request_url := sponsorship_request_url c;
     billing_home_url := billing_home_url c;
     store_accepts_request := accept;
     store_accepts_org_type := store_accepts_org_type c;
     py_float := py_float c;
     py_strip := py_strip c;
     py_int := py_int c;
     url_to_python := url_to_python c;
     url_validator := url_validator c |}.

(** The store refuses every new request row. *)
Definition store_refuses : Collaborators :=
  with_request_check (λ _, false) healthy.

(** The customer of the organization has a discount of 25 percent and is
    exempt from the license number check. *)
Definition world_discount : World :=
  {| db :=
       {| sponsorship_requests := [];
          realms := {[ 1 := acme ]};
          customers :=
            {[ 1 := {| customer_id := 1; sponsorship_pending := false;
                       default_discount := Some (25 # 1)%Q;
                       exempt_from_license_number_check := true |} ]};
          current_plans := ∅;
          billing_admins := ∅ |};
     realm_obj := acme;
     trace := [] |}.

(** A complete upgrade request that leaves the optional variables out. *)
Definition upgrade_form : gmap string string :=
  {[ "billing_modality" := "charge_automatically";
     "schedule" := "monthly";
     "signed_seat_count" := "7:signature";
     "salt" := "salt" ]}.

(** What [sponsorship_form] cleans to. *)
Definition cleaned_form : CleanedData :=
  mkCleaned "http://zulip.org" 20 "A chat project" "10" "0" "".

Fixpoint repeat_text (n : nat) (s : string) : string :=
  match n with
  | O => ""
  | S n => s +:+ repeat_text n s
  end.

(** A well-formed address of 311 characters. *)
Definition long_website : string :=
  "http://" +:+ repeat_text 30 "zulipchat." +:+ ".org".

(** A well-formed address of 200 characters in 300 bytes: 100 of its
    characters take two bytes each. *)
Definition accented_website : string :=
  "http://" +:+ repeat_text 100 "é" +:+ repeat_text 89 "z" +:+ ".org".

(** The customer of the organization has a discount of 33.3333
    percent. *)
Definition world_thirds : World :=
  {| db :=
       {| sponsorship_requests := [];
          realms := {[ 1 := acme ]};
          customers :=
            {[ 1 := {| customer_id := 1; sponsorship_pending := false;
                       default_discount := Some (333333 # 10000)%Q;
                       exempt_from_license_number_check := false |} ]};
          current_plans := ∅;
          billing_admins := ∅ |};
     realm_obj := acme;
     trace := [] |}.

End Demo.

(* ===================================================================== *)
(** * Properties *)
(* ===================================================================== *)

Ltac unfold_monad :=
  unfold bind, ret, raise, lift_result, try_except, call, note,
    get_realm, get_db, set_realm in *.

Section UpgradeProperties.
Context (settings : Settings) (ext : Collaborators).

(** When the variables pass [has_request_variables], [upgrade] is its
    body applied to them. *)
Lemma upgrade_runs_body request user w bm sc ssc salt onb lm lic :
  REQ_required "billing_modality"
    (check_string_in VALID_BILLING_MODALITY_VALUES) request = Return bm →
  REQ_required "schedule"
    (check_string_in VALID_BILLING_SCHEDULE_VALUES) request = Return sc →
  REQ_required "signed_seat_count" no_validator request = Return ssc →
  REQ_required "salt" no_validator request = Return salt →
  REQ_default "onboarding" false (json_validator (check_bool ext)) request
    = Return onb →
  REQ_default "license_management" None
    (optional (check_string_in VALID_LICENSE_MANAGEMENT_VALUES)) request
    = Return lm →
  REQ_default "licenses" None (optional (json_validator (check_int ext)))
    request = Return lic →
  upgrade settings ext request user w
  = upgrade_view settings ext user bm sc ssc salt onb lm lic w.
Proof.
  intros H1 H2 H3 H4 H5 H6 H7. unfold upgrade. unfold_monad.
  by rewrite H1, H2, H3, H4, H5, H6, H7.
Qed.

(** C5.  A [BillingError] raised by the billing back-end during
    [upgrade] is logged once at warning level with the error's
    description, the user id, the organization's id and string id, the
    billing modality, the schedule, the license management and the
    licenses, and is then raised again with description and message
    unchanged. *)
Theorem upgrade_billing_error_logged_and_reraised
    user bm sc ssc salt onb lm lic w description message store' :
  do_upgrade ext (mkSession user)
    (mkUpgradeRequest bm sc ssc salt onb lm lic) (db w)
  = (Raise (BillingError description message), store') →
  ∃ w' r,
    upgrade_view settings ext user bm sc ssc salt onb lm lic w
    = (Raise (BillingError description message), w')
    ∧ log_records (trace w') = log_records (trace w) ++ [r]
    ∧ level r = WARNING
    ∧ args r = [ArgStr description; ArgInt (user_id user);
                ArgInt (realm_id (realm_obj w));
                ArgStr (string_id (realm_obj w));
                ArgStr bm; ArgStr sc; ArgOptStr lm; ArgOptInt lic]
    ∧ db w' = store'.
Proof.
  intros Hup. unfold upgrade_view, billing_logger_warning. unfold_monad.
  cbn. rewrite Hup. cbn. eexists _, _. split; [reflexivity|].
  cbn. unfold log_records. rewrite !omap_app. cbn.
  rewrite app_nil_r. done.
Qed.

(** C4.  When the billing back-end raises anything other than a
    [BillingError] during [upgrade], the failure is logged once at error
    level with its traceback and the stack, and the view raises the
    [BillingError] whose description is "uncaught exception during
    upgrade" and whose message is the contact-support template filled
    with the administrator's address; what is raised does not depend on
    the original failure. *)
Theorem upgrade_unexpected_failure_converted
    user bm sc ssc salt onb lm lic w e store' :
  do_upgrade ext (mkSession user)
    (mkUpgradeRequest bm sc ssc salt onb lm lic) (db w)
  = (Raise e, store') →
  is_billing_error e = false →
  ∃ w' r,
    upgrade_view settings ext user bm sc ssc salt onb lm lic w
    = (Raise (BillingError "uncaught exception during upgrade"
                (CONTACT_SUPPORT_format ext (ZULIP_ADMINISTRATOR settings))),
       w')
    ∧ log_records (trace w') = log_records (trace w) ++ [r]
    ∧ level r = ERROR
    ∧ exc_info r = Some e
    ∧ stack_info r = true.
Proof.
  intros Hup Hother. unfold upgrade_view, billing_logger_exception.
  unfold_monad. cbn. rewrite Hup.
  destruct e; try discriminate Hother; cbn;
    (eexists _, _; split; [reflexivity|]; cbn;
     unfold log_records; rewrite !omap_app; cbn; by rewrite app_nil_r).
Qed.

(** C7.  A request to [upgrade] whose billing_modality or schedule is
    not in its enumeration is rejected by the validation of that
    variable or of the one before it: the body does not run, so the
    world is unchanged (no upgrade request reaches the billing back-end
    and nothing is stored or logged). *)
Theorem upgrade_rejects_values_outside_enumeration request user w :
  (∃ v, request_var request "billing_modality" = Some v
        ∧ v ∉ VALID_BILLING_MODALITY_VALUES)
  ∨ (∃ v, request_var request "schedule" = Some v
          ∧ v ∉ VALID_BILLING_SCHEDULE_VALUES) →
  ∃ var_name fault,
    upgrade settings ext request user w
    = (Raise (ValidationError var_name fault), w)
    ∧ (var_name = "billing_modality" ∨ var_name = "schedule")
    ∧ (is_Some (request_var request "billing_modality") →
       fault = InvalidValue).
Proof.
  intros Hbad. unfold upgrade, REQ_required, check_string_in. unfold_monad.
  destruct (request_var request "billing_modality") as [bm|] eqn:Hbm.
  - case_bool_decide as Hin.
    + destruct Hbad as [(v & Hv & Hout)|(v & Hv & Hout)].
      * injection Hv as <-. contradiction.
      * rewrite Hv. rewrite bool_decide_eq_false_2 by done. eauto 10.
    + eauto 10.
  - eexists _, _. split; [reflexivity|]. split; [by left|].
    intros [? ?]. discriminate.
Qed.

End UpgradeProperties.

Section InitialUpgradeProperties.
Context (settings : Settings) (ext : Collaborators).

(** [initial_upgrade] only reads: the world is left as it was. *)
Lemma initial_upgrade_reads_only user onboarding manual w :
  snd (initial_upgrade settings ext user onboarding manual w) = w.
Proof.
  unfold initial_upgrade. unfold_monad.
  repeat (case_match; cbn; try done).
Qed.

(** C6, as amended.  [initial_upgrade] answers 404 when billing is
    disabled or the user is a guest; otherwise it redirects to the
    sponsorship-request page when the customer is sponsorship-pending or
    the organization is on the free-standard plan; otherwise it
    redirects to the billing home page when a customer record exists and
    either has a current plan or the onboarding flag is set (the flag is
    then carried in the URL); otherwise, which includes the onboarding
    flag set with no customer record, it renders the upgrade page. *)
Theorem initial_upgrade_dispatch user onboarding manual w :
  let customer := get_customer_by_realm ext (db w) (realm_obj w) in
  let sponsored :=
    customer_and customer sponsorship_pending
    || (plan_type (realm_obj w) =? PLAN_TYPE_STANDARD_FREE ext) in
  let response := fst (initial_upgrade settings ext user onboarding manual w) in
  (BILLING_ENABLED settings = false ∨ is_guest user = true →
   response = Return (render "404.html" None 404))
  ∧ (BILLING_ENABLED settings = true → is_guest user = false →
     sponsored = true →
     response = Return (HttpResponseRedirect (sponsorship_request_url ext)))
  ∧ (BILLING_ENABLED settings = true → is_guest user = false →
     sponsored = false →
     ∀ c, customer = Some c →
       is_Some (get_current_plan_by_customer ext (db w) c)
       ∨ onboarding = true →
       response
       = Return (HttpResponseRedirect
                   (if onboarding
                    then billing_home_url ext +:+ "?onboarding=true"
                    else billing_home_url ext)))
  ∧ (BILLING_ENABLED settings = true → is_guest user = false →
     sponsored = false →
     customer = None
     ∨ (∃ c, customer = Some c
             ∧ get_current_plan_by_customer ext (db w) c = None
             ∧ onboarding = false) →
     ∃ context,
       response = Return (render "corporate/upgrade.html" (Some context) 200)
       ∧ uc_onboarding context = onboarding).
Proof.
  intros customer sponsored response.
  subst response. unfold initial_upgrade. unfold_monad. cbn.
  fold customer. fold sponsored.
  repeat split.
  - intros [-> | ->]; cbn; [done|]. by rewrite orb_true_r.
  - intros -> -> ->. done.
  - intros -> -> -> c Hc Hplan. cbn. rewrite Hc. cbn.
    destruct Hplan as [Hplan | ->].
    + rewrite bool_decide_eq_true_2 by done. done.
    + rewrite orb_true_r. done.
  - intros -> -> -> Hnone. cbn.
    destruct Hnone as [-> | (c & -> & Hplan & ->)]; cbn.
    + destruct (sign_string ext _). eauto.
    + rewrite Hplan. rewrite bool_decide_eq_false_2 by (intros [? ?]; done).
      cbn. destruct (sign_string ext _). eauto.
Qed.

End InitialUpgradeProperties.

Lemma string_app_assoc (s1 s2 s3 : string) :
  (s1 +:+ s2) +:+ s3 = s1 +:+ s2 +:+ s3.
Proof.
  induction s1 as [|c s1 IH]; [reflexivity|].
  change (String c ((s1 +:+ s2) +:+ s3) = String c (s1 +:+ s2 +:+ s3)).
  by rewrite IH.
Qed.

Lemma substring_refl_app (m after : string) : substring m (m +:+ after).
Proof. by exists "", after. Qed.

Lemma substring_app_l (m s before : string) :
  substring m s → substring m (before +:+ s).
Proof.
  intros (b & a & ->). exists (before +:+ b), a.
  by rewrite string_app_assoc.
Qed.

(** Every part of [sep.join(parts)] occurs in the result. *)
Lemma join_contains sep (parts : list string) m :
  m ∈ parts → substring m (join sep parts).
Proof.
  induction parts as [|p rest IH]; intros Hin.
  - by apply elem_of_nil in Hin.
  - apply elem_of_cons in Hin. destruct rest as [|q rest].
    + destruct Hin as [-> | Hin]; [|by apply elem_of_nil in Hin].
      exists "", "". change (p = p +:+ ""). clear.
      induction p as [|c p IH]; [reflexivity|].
      change (String c p = String c (p +:+ "")). by rewrite <- IH.
    + change (join sep (p :: q :: rest))
        with (p +:+ sep +:+ join sep (q :: rest)).
      destruct Hin as [-> | Hin].
      * apply substring_refl_app.
      * do 2 apply substring_app_l. by apply IH.
Qed.

Section SponsorshipProperties.
Context (ext : Collaborators).

(** [form.is_valid()] holds exactly when [cleaned_data] is complete. *)
Lemma is_valid_cleaned_data form :
  is_valid form = true ↔ is_Some (cleaned_data form).
Proof.
  unfold is_valid, errors, cleaned_data, field_errors.
  destruct form as [[] [] [] [] [] []]; cbn; split;
    (done || by intros [? ?] || eauto).
Qed.

Lemma not_valid_cleaned_data form :
  is_valid form = false ↔ cleaned_data form = None.
Proof.
  rewrite <- not_true_iff_false, is_valid_cleaned_data.
  rewrite <- eq_None_not_Some. done.
Qed.

Ltac use_frame F H :=
  match type of H with
  | _ ?d = _ =>
      let F' := fresh "Hframe" in
      pose proof (F d) as F'; rewrite H in F'; cbn in F'
  end.

Ltac run_transaction :=
  unfold sponsorship_transaction, save_sponsorship_request, save_realm,
    atomic;
  unfold_monad; cbn;
  repeat (case_match; cbn in *; simplify_eq; cbn in *).

(** The statements of the transaction send no mail and open no
    transaction of their own. *)
Lemma transaction_trace user session cleaned w0 r w1 :
  sponsorship_transaction ext user session cleaned w0 = (r, w1) →
  emails (trace w1) = emails (trace w0)
  ∧ request_saves (trace w1)
    = request_saves (trace w0)
      ++ [new_sponsorship_request (realm_obj w0) user cleaned].
Proof.
  revert r w1. run_transaction; intros; simplify_eq; cbn;
    unfold emails, request_saves; rewrite ?omap_app; cbn;
    rewrite ?app_nil_r; try done.
Qed.


(** The view on a valid form: the transaction, then the message. *)
Lemma sponsorship_view_valid request user ot web desc etu puc pud w cleaned :
  cleaned_data
    (SponsorshipRequestForm ext (<["organization_type" := ot]> (POST request)))
  = Some cleaned →
  sponsorship_view ext request user ot web desc etu puc pud w
  = match atomic (sponsorship_transaction ext user (mkSession user) cleaned) w
    with
    | (Return name, w1) =>
        let m :=
          {| template_prefix := "zerver/emails/sponsorship_request";
             to_emails := [FromAddress_SUPPORT ext];
             from_name := "Zulip sponsorship";
             from_address := tokenized_no_reply_address ext;
             reply_to_email := delivery_email user;
             email_context :=
               {| ctx_requested_by := full_name user;
                  ctx_user_role := get_role_name ext user;
                  ctx_string_id := string_id (realm_obj w1);
                  ctx_support_url := get_support_url ext (realm_obj w);
                  ctx_organization_type := name;
                  ctx_website := web;
                  ctx_description := desc;
                  ctx_expected_total_users := etu;
                  ctx_paid_users_count := puc;
                  ctx_paid_users_description := pud |} |} in
        match send_email_outcome ext m with
        | None => (Return (json_success []), emit (EvSendEmail m) w1)
        | Some e => (Raise e, emit (EvSendEmail m) w1)
        end
    | (Raise e, w1) => (Raise e, w1)
    end.
Proof.
  intros Hc. unfold sponsorship_view, send_email. unfold_monad. cbn.
  rewrite Hc.
  destruct (atomic _ w) as [[name|e] w1]; [|done].
  cbn. by destruct (send_email_outcome ext _).
Qed.

(** C1.  On a valid form, when the block under [transaction.atomic()]
    raises (the request row is refused, the org_type update fails, the
    customer cannot be marked sponsorship-pending or the billing
    administrator grant fails), [sponsorship] raises the same exception
    and the store is what it was before the call: no request row, no
    org_type change and no pending flag remain. *)
Theorem sponsorship_failure_leaves_store_unchanged
    request user ot web desc etu puc pud w cleaned e :
  cleaned_data
    (SponsorshipRequestForm ext (<["organization_type" := ot]> (POST request)))
  = Some cleaned →
  fst (atomic (sponsorship_transaction ext user (mkSession user) cleaned) w)
  = Raise e →
  ∃ w',
    sponsorship_view ext request user ot web desc etu puc pud w = (Raise e, w')
    ∧ db w' = db w
    ∧ emails (trace w') = emails (trace w).
Proof.
  intros Hc Hfail. rewrite (sponsorship_view_valid _ _ _ _ _ _ _ _ _ _ Hc).
  destruct (atomic _ w) as [r w1] eqn:Hrun. cbn in Hfail. subst r.
  exists w1. split; [done|].
  unfold atomic in Hrun.
  destruct (sponsorship_transaction _ _ _ _ _) as [[name|e'] w2] eqn:Htx;
    simplify_eq.
  apply transaction_trace in Htx as [Hmail _]. cbn in *.
  split; [done|].
  unfold emails in *. rewrite omap_app, Hmail, omap_app. cbn.
  by rewrite !app_nil_r.
Qed.

(** The messages that make up the combined message are those of the
    six fields, in the order of declaration. *)
Lemma errors_messages form :
  flat_map snd (errors form)
  = error_list (f_website form) ++ error_list (f_organization_type form)
    ++ error_list (f_description form)
    ++ error_list (f_expected_total_users form)
    ++ error_list (f_paid_users_count form)
    ++ error_list (f_paid_users_description form).
Proof.
  unfold errors. destruct form as [[] [] [] [] [] []]; cbn;
    rewrite ?app_nil_r; done.
Qed.

(** C2.  On a form that is not valid, [sponsorship] changes nothing in
    the world and raises one [BillingError] whose description is "Form
    validation error" and whose message is the messages of the six
    fields joined by blanks, in the order of the fields; so every
    message of every field that failed, website, organization_type,
    description, expected_total_users, paid_users_count or
    paid_users_description, occurs in it. *)
Theorem sponsorship_invalid_form request user ot web desc etu puc pud w :
  is_valid
    (SponsorshipRequestForm ext (<["organization_type" := ot]> (POST request)))
  = false →
  let form :=
    SponsorshipRequestForm ext (<["organization_type" := ot]> (POST request))
  in
  let message :=
    join " "
      (error_list (f_website form) ++ error_list (f_organization_type form)
       ++ error_list (f_description form)
       ++ error_list (f_expected_total_users form)
       ++ error_list (f_paid_users_count form)
       ++ error_list (f_paid_users_description form)) in
  sponsorship_view ext request user ot web desc etu puc pud w
  = (Raise (BillingError "Form validation error" message), w)
  ∧ ∀ complaint,
      complaint ∈ error_list (f_website form)
      ∨ complaint ∈ error_list (f_organization_type form)
      ∨ complaint ∈ error_list (f_description form)
      ∨ complaint ∈ error_list (f_expected_total_users form)
      ∨ complaint ∈ error_list (f_paid_users_count form)
      ∨ complaint ∈ error_list (f_paid_users_description form) →
      substring complaint message.
Proof.
  intros Hinvalid form message. apply not_valid_cleaned_data in Hinvalid.
  fold form in Hinvalid. split.
  - unfold sponsorship_view. unfold_monad. cbn. fold form.
    rewrite Hinvalid. unfold combined_message.
    by rewrite errors_messages.
  - intros complaint Hin. apply join_contains.
    rewrite !elem_of_app. tauto.
Qed.

(** What the transaction does to the organization: the calls of
    [realm.save], the object in memory and the realm table. *)
Lemma transaction_realm user cleaned w0 r w1 :
  sponsorship_transaction ext user (mkSession user) cleaned w0 = (r, w1) →
  (org_type (realm_obj w0) = cd_organization_type cleaned →
     realm_saves (trace w1) = realm_saves (trace w0)
     ∧ realm_obj w1 = realm_obj w0
     ∧ (preserves realms
          (update_customer_sponsorship_status ext (mkSession user) true) →
        preserves realms (do_make_user_billing_admin ext user) →
        realms (db w1) = realms (db w0)))
  ∧ (org_type (realm_obj w0) ≠ cd_organization_type cleaned →
     store_accepts_request ext
       (new_sponsorship_request (realm_obj w0) user cleaned) = true →
     realm_saves (trace w1)
     = realm_saves (trace w0) ++ [(realm_id (realm_obj w0), ["org_type"])]
     ∧ (preserves realms
          (update_customer_sponsorship_status ext (mkSession user) true) →
        preserves realms (do_make_user_billing_admin ext user) →
        raised r = false →
        ∃ row,
          realms (db w0) !! realm_id (realm_obj w0) = Some row
          ∧ realms (db w1)
            = <[realm_id (realm_obj w0) :=
                  set_org_type (cd_organization_type cleaned) row]>
                (realms (db w0)))).
Proof.
  intros Hrun. split.
  - intros Heq. apply Z.eqb_eq in Heq.
    revert Hrun. unfold sponsorship_transaction, save_sponsorship_request.
    unfold_monad. cbn. rewrite Heq. cbn.
    destruct (store_accepts_request ext _); cbn.
    + destruct (update_customer_sponsorship_status ext _ _ _)
        as [[[]|e1] d1] eqn:H1; cbn.
      * destruct (do_make_user_billing_admin ext _ _) as [[[]|e2] d2] eqn:H2;
          cbn; intros; simplify_eq; cbn;
          (split; [unfold realm_saves; rewrite !omap_app; cbn;
                   by rewrite !app_nil_r|]);
          (split; [done|]); intros F1 F2;
          use_frame F1 H1; use_frame F2 H2; congruence.
      * intros; simplify_eq; cbn.
        (split; [unfold realm_saves; rewrite !omap_app; cbn;
                 by rewrite !app_nil_r|]).
        (split; [done|]); intros F1 _. use_frame F1 H1. congruence.
    + intros; simplify_eq; cbn.
      (split; [unfold realm_saves; rewrite !omap_app; cbn;
               by rewrite !app_nil_r|]). done.
  - intros Hne Hok. apply Z.eqb_neq in Hne.
    revert Hrun.
    unfold sponsorship_transaction, save_sponsorship_request, save_realm.
    unfold_monad. cbn. rewrite Hne, Hok. cbn.
    destruct (realms (db w0) !! realm_id (realm_obj w0)) as [row|] eqn:Hrow;
      cbn.
    + destruct (store_accepts_org_type ext _); cbn.
      * destruct (update_customer_sponsorship_status ext _ _ _)
          as [[[]|e1] d1] eqn:H1; cbn.
        -- destruct (do_make_user_billing_admin ext _ _)
             as [[[]|e2] d2] eqn:H2;
             cbn; intros; simplify_eq; cbn;
             (split; [unfold realm_saves; rewrite !omap_app; cbn;
                      by rewrite !app_nil_r|]);
             intros F1 F2 Hr; try discriminate Hr.
           use_frame F1 H1. use_frame F2 H2.
           exists row. split; [done|]. congruence.
        -- intros; simplify_eq; cbn.
           (split; [unfold realm_saves; rewrite !omap_app; cbn;
                    by rewrite !app_nil_r|]).
           intros _ _ Hr. discriminate Hr.
      * intros; simplify_eq; cbn.
        (split; [unfold realm_saves; rewrite !omap_app; cbn;
                 by rewrite !app_nil_r|]).
        intros _ _ Hr. discriminate Hr.
    + intros; simplify_eq; cbn.
      (split; [unfold realm_saves; rewrite !omap_app; cbn;
               by rewrite !app_nil_r|]).
      intros _ _ Hr. discriminate Hr.
Qed.


(** With collaborators that leave the request table alone, a
    transaction that returns has added exactly the new row. *)
Lemma transaction_requests user cleaned w0 name w1 :
  sponsorship_transaction ext user (mkSession user) cleaned w0
  = (Return name, w1) →
  preserves sponsorship_requests
    (update_customer_sponsorship_status ext (mkSession user) true) →
  preserves sponsorship_requests (do_make_user_billing_admin ext user) →
  sponsorship_requests (db w1)
  = sponsorship_requests (db w0)
    ++ [new_sponsorship_request (realm_obj w0) user cleaned].
Proof.
  unfold sponsorship_transaction, save_sponsorship_request, save_realm.
  unfold_monad. cbn. intros Hrun F1 F2. revert Hrun.
  destruct (store_accepts_request ext _); cbn; [|done].
  destruct (org_type (realm_obj w0) =? _); cbn.
  - destruct (update_customer_sponsorship_status ext _ _ _)
      as [[[]|e1] d1] eqn:H1; cbn; [|done].
    destruct (do_make_user_billing_admin ext _ _) as [[[]|e2] d2] eqn:H2;
      cbn; [|done].
    intros; simplify_eq; cbn. use_frame F1 H1. use_frame F2 H2. congruence.
  - destruct (realms (db w0) !! _); cbn; [|done].
    destruct (store_accepts_org_type ext _); cbn; [|done].
    destruct (update_customer_sponsorship_status ext _ _ _)
      as [[[]|e1] d1] eqn:H1; cbn; [|done].
    destruct (do_make_user_billing_admin ext _ _) as [[[]|e2] d2] eqn:H2;
      cbn; [|done].
    intros; simplify_eq; cbn. use_frame F1 H1. use_frame F2 H2. congruence.
Qed.

(** What a successful run of the view consists of. *)
Lemma sponsorship_view_success
    request user ot web desc etu puc pud w response w' :
  sponsorship_view ext request user ot web desc etu puc pud w
  = (Return response, w') →
  ∃ cleaned name w2 m,
    cleaned_data
      (SponsorshipRequestForm ext
         (<["organization_type" := ot]> (POST request))) = Some cleaned
    ∧ sponsorship_transaction ext user (mkSession user) cleaned
        (emit EvAtomicEnter w) = (Return name, w2)
    ∧ w' = emit (EvSendEmail m) (emit EvAtomicCommit w2)
    ∧ response = json_success []
    ∧ template_prefix m = "zerver/emails/sponsorship_request"
    ∧ to_emails m = [FromAddress_SUPPORT ext]
    ∧ reply_to_email m = delivery_email user
    ∧ ctx_organization_type (email_context m) = name
    ∧ ctx_website (email_context m) = web
    ∧ ctx_description (email_context m) = desc
    ∧ ctx_expected_total_users (email_context m) = etu
    ∧ ctx_paid_users_count (email_context m) = puc
    ∧ ctx_paid_users_description (email_context m) = pud.
Proof.
  destruct (cleaned_data (SponsorshipRequestForm ext _)) as [cleaned|] eqn:Hc.
  - rewrite (sponsorship_view_valid _ _ _ _ _ _ _ _ _ _ Hc). unfold atomic.
    destruct (sponsorship_transaction _ _ _ _ _) as [[name|e] w2] eqn:Htx;
      [|done].
    cbn. destruct (send_email_outcome ext _); [done|].
    intros; simplify_eq. eexists cleaned, name, w2, _.
    repeat split; done.
  - unfold sponsorship_view. unfold_monad. cbn. rewrite Hc. done.
Qed.

(** X21.  For every run of [sponsorship], either the transaction ran
    to its end and the store is what it left, or the store is what it
    was before the call. *)
Lemma sponsorship_all_or_nothing request user ot web desc etu puc pud w :
  let w' := snd (sponsorship_view ext request user ot web desc etu puc pud w) in
  db w' = db w
  ∨ ∃ cleaned name w2,
      sponsorship_transaction ext user (mkSession user) cleaned
        (emit EvAtomicEnter w) = (Return name, w2)
      ∧ db w' = db w2.
Proof.
  destruct (cleaned_data (SponsorshipRequestForm ext
      (<["organization_type" := ot]> (POST request)))) as [cleaned|] eqn:Hc.
  - cbn zeta. rewrite (sponsorship_view_valid _ _ _ _ _ _ _ _ _ _ Hc).
    unfold atomic.
    destruct (sponsorship_transaction _ _ _ _ _) as [[name|e] w2] eqn:Htx.
    + right. exists cleaned, name, w2. split; [done|].
      cbn. by destruct (send_email_outcome ext _).
    + by left.
  - left. unfold sponsorship_view. unfold_monad. cbn. by rewrite Hc.
Qed.

(** C3.  On a valid form: when the submitted organization type equals
    [realm.org_type], the view makes no [realm.save] call and leaves
    the object alone, and the realm table is unchanged when the
    collaborators do not touch it; when it differs (and the request row
    was stored), the view makes exactly one [realm.save] call, with
    [update_fields=["org_type"]], and in a successful run the stored row
    of the organization has the submitted organization type as its
    org_type while its id, string_id, plan_type and deletion date are
    those it had, and no other row of the table changes. *)
Theorem sponsorship_org_type_write
    request user ot web desc etu puc pud w cleaned :
  cleaned_data
    (SponsorshipRequestForm ext (<["organization_type" := ot]> (POST request)))
  = Some cleaned →
  let run := sponsorship_view ext request user ot web desc etu puc pud w in
  let quiet :=
    preserves realms
      (update_customer_sponsorship_status ext (mkSession user) true)
    ∧ preserves realms (do_make_user_billing_admin ext user) in
  (org_type (realm_obj w) = cd_organization_type cleaned →
     realm_saves (trace (snd run)) = realm_saves (trace w)
     ∧ realm_obj (snd run) = realm_obj w
     ∧ (quiet → realms (db (snd run)) = realms (db w)))
  ∧ (org_type (realm_obj w) ≠ cd_organization_type cleaned →
     store_accepts_request ext
       (new_sponsorship_request (realm_obj w) user cleaned) = true →
     realm_saves (trace (snd run))
     = realm_saves (trace w) ++ [(realm_id (realm_obj w), ["org_type"])]
     ∧ (quiet → raised (fst run) = false →
        ∃ row row',
          realms (db w) !! realm_id (realm_obj w) = Some row
          ∧ realms (db (snd run))
            = <[realm_id (realm_obj w) := row']> (realms (db w))
          ∧ org_type row' = cd_organization_type cleaned
          ∧ realm_id row' = realm_id row
          ∧ string_id row' = string_id row
          ∧ plan_type row' = plan_type row
          ∧ demo_organization_scheduled_deletion_date row'
            = demo_organization_scheduled_deletion_date row)).
Proof.
  intros Hc run quiet. subst run.
  assert (Hcolumns : ∀ (table table' : gmap Z Realm) id,
            (∃ row, table !! id = Some row
                    ∧ table'
                      = <[id := set_org_type (cd_organization_type cleaned)
                                  row]> table) →
            ∃ row row',
              table !! id = Some row
              ∧ table' = <[id := row']> table
              ∧ org_type row' = cd_organization_type cleaned
              ∧ realm_id row' = realm_id row
              ∧ string_id row' = string_id row
              ∧ plan_type row' = plan_type row
              ∧ demo_organization_scheduled_deletion_date row'
                = demo_organization_scheduled_deletion_date row).
  { intros table table' id (row & Hrow & ->).
    exists row, (set_org_type (cd_organization_type cleaned) row).
    repeat split; done. }
  rewrite (sponsorship_view_valid _ _ _ _ _ _ _ _ _ _ Hc). unfold atomic.
  destruct (sponsorship_transaction _ _ _ _ _) as [r w2] eqn:Htx.
  apply transaction_realm in Htx as [Hsame Hdiff]. cbn in Hsame, Hdiff.
  assert (Hsaves : ∀ t ev, realm_saves [ev] = [] →
            realm_saves (t ++ [ev]) = realm_saves t).
  { intros t ev Hev. unfold realm_saves in *. rewrite omap_app, Hev.
    apply app_nil_r. }
  split.
  - intros Heq. destruct (Hsame Heq) as (Hs & Ho & Hr).
    rewrite Hsaves in Hs by done.
    destruct r as [name|e]; cbn.
    + destruct (send_email_outcome ext _); cbn;
        rewrite !Hsaves by done; (split; [done|]); (split; [done|]);
        intros [F1 F2]; auto.
    + rewrite Hsaves by done. done.
  - intros Hne Hok. destruct (Hdiff Hne Hok) as (Hs & Hr).
    rewrite Hsaves in Hs by done.
    destruct r as [name|e]; cbn.
    + destruct (send_email_outcome ext _); cbn;
        rewrite !Hsaves by done; (split; [done|]);
        intros [F1 F2] Hraised; try discriminate Hraised;
        apply Hcolumns; auto.
    + rewrite Hsaves by done. split; [done|].
      intros _ Hraised. discriminate Hraised.
Qed.

(** C9.  A successful [sponsorship] sends exactly one message, and
    sends it right after the transaction has committed: the message goes
    to the support address and has the requester's delivery address as
    its reply-to. *)
Theorem sponsorship_success_sends_one_email
    request user ot web desc etu puc pud w response w' :
  sponsorship_view ext request user ot web desc etu puc pud w
  = (Return response, w') →
  ∃ before m,
    trace w' = before ++ [EvAtomicCommit; EvSendEmail m]
    ∧ emails before = emails (trace w)
    ∧ emails (trace w') = emails (trace w) ++ [m]
    ∧ template_prefix m = "zerver/emails/sponsorship_request"
    ∧ to_emails m = [FromAddress_SUPPORT ext]
    ∧ reply_to_email m = delivery_email user.
Proof.
  intros Hrun.
  apply sponsorship_view_success in Hrun
    as (cleaned & name & w2 & m & _ & Htx & -> & _ & Hprefix & Hto & Hreply
        & _).
  apply transaction_trace in Htx as [Hmail _]. cbn in Hmail.
  exists (trace w2), m. cbn.
  assert (He : emails (trace w2) = emails (trace w)).
  { rewrite Hmail. unfold emails. rewrite omap_app. cbn. apply app_nil_r. }
  rewrite <- app_assoc. cbn. split; [done|]. split; [done|].
  split; [|done].
  unfold emails in *. rewrite omap_app. cbn. by rewrite He.
Qed.

(** C10.  In a successful [sponsorship] the row handed to the store
    holds the values of [form.cleaned_data], and it is the row found in
    the store when the collaborators leave the request table alone; the
    context of the message holds website, description,
    expected_total_users, paid_users_count and paid_users_description as
    they came with the request. *)
Theorem sponsorship_row_is_cleaned_email_is_raw
    request user ot web desc etu puc pud w response w' :
  sponsorship_view ext request user ot web desc etu puc pud w
  = (Return response, w') →
  ∃ cleaned row m,
    cleaned_data
      (SponsorshipRequestForm ext
         (<["organization_type" := ot]> (POST request))) = Some cleaned
    ∧ request_saves (trace w') = request_saves (trace w) ++ [row]
    ∧ org_website row = cd_website cleaned
    ∧ org_description row = cd_description cleaned
    ∧ sr_org_type row = cd_organization_type cleaned
    ∧ sr_expected_total_users row = cd_expected_total_users cleaned
    ∧ sr_paid_users_count row = cd_paid_users_count cleaned
    ∧ sr_paid_users_description row = cd_paid_users_description cleaned
    ∧ (preserves sponsorship_requests
         (update_customer_sponsorship_status ext (mkSession user) true) →
       preserves sponsorship_requests (do_make_user_billing_admin ext user) →
       sponsorship_requests (db w') = sponsorship_requests (db w) ++ [row])
    ∧ emails (trace w') = emails (trace w) ++ [m]
    ∧ ctx_website (email_context m) = web
    ∧ ctx_description (email_context m) = desc
    ∧ ctx_expected_total_users (email_context m) = etu
    ∧ ctx_paid_users_count (email_context m) = puc
    ∧ ctx_paid_users_description (email_context m) = pud.
Proof.
  intros Hrun.
  apply sponsorship_view_success in Hrun
    as (cleaned & name & w2 & m & Hc & Htx & -> & _ & _ & _ & _ & _
        & Hweb & Hdesc & Hetu & Hpuc & Hpud).
  pose proof (transaction_trace _ _ _ _ _ _ Htx) as [Hmail Hrows].
  cbn in Hmail, Hrows.
  exists cleaned, (new_sponsorship_request (realm_obj w) user cleaned), m.
  split; [done|]. split.
  { cbn. unfold request_saves in *. rewrite !omap_app. cbn.
    rewrite !app_nil_r. rewrite Hrows. rewrite omap_app. cbn.
    by rewrite app_nil_r. }
  do 6 (split; [done|]). split.
  { intros F1 F2. cbn.
    by rewrite (transaction_requests _ _ _ _ _ Htx F1 F2). }
  split; [|done].
  cbn. unfold emails in *. rewrite !omap_app. cbn.
  rewrite Hmail, omap_app. cbn. by rewrite !app_nil_r.
Qed.


(** With its six variables present, [sponsorship] is its body applied
    to them. *)
Lemma sponsorship_runs_body request user w ot web desc etu puc pud :
  request_var request "organization-type" = Some ot →
  request_var request "website" = Some web →
  request_var request "description" = Some desc →
  request_var request "expected_total_users" = Some etu →
  request_var request "paid_users_count" = Some puc →
  request_var request "paid_users_description" = Some pud →
  sponsorship ext request user w
  = sponsorship_view ext request user ot web desc etu puc pud w.
Proof.
  intros H1 H2 H3 H4 H5 H6. unfold sponsorship, REQ_required, no_validator.
  unfold_monad. by rewrite H1, H2, H3, H4, H5, H6.
Qed.

(** A variable that the request does not carry stops [sponsorship]
    before its body: here for [website], the second one extracted. *)
Lemma sponsorship_without_website request user w ot :
  request_var request "organization-type" = Some ot →
  request_var request "website" = None →
  sponsorship ext request user w
  = (Raise (ValidationError "website" MissingVariable), w).
Proof.
  intros H1 H2. unfold sponsorship, REQ_required, no_validator.
  unfold_monad. by rewrite H1, H2.
Qed.

(** An optional field of the form accepts the empty string and the
    absence of its key. *)
Lemma optional_field_empty (value : option string) :
  value = None ∨ value = Some "" →
  URLField ext (MAX_ORG_URL_LENGTH ext) false value = Clean ""
  ∧ CharField ext false value = Clean "".
Proof. intros [-> | ->]; done. Qed.

(** C8, as amended.  [website] and [paid_users_description] may be
    empty: a request that carries all six variables, whose required
    fields are valid and whose two optional fields are each absent from
    the form body, empty or valid, passes the validation of the form,
    an absent or empty optional field being cleaned to the empty string;
    [sponsorship] then succeeds whenever the transaction and the mail
    system do. *)
Theorem sponsorship_optional_fields_may_be_empty
    request user w ot web desc etu puc pud t d e c :
  request_var request "organization-type" = Some ot →
  request_var request "website" = Some web →
  request_var request "description" = Some desc →
  request_var request "expected_total_users" = Some etu →
  request_var request "paid_users_count" = Some puc →
  request_var request "paid_users_description" = Some pud →
  (POST request !! "website" = None ∨ POST request !! "website" = Some ""
   ∨ ∃ v, URLField ext (MAX_ORG_URL_LENGTH ext) false
            (POST request !! "website") = Clean v) →
  (POST request !! "paid_users_description" = None
   ∨ POST request !! "paid_users_description" = Some ""
   ∨ ∃ v, CharField ext false (POST request !! "paid_users_description")
          = Clean v) →
  IntegerField ext (Some ot) = Clean t →
  CharField ext true (POST request !! "description") = Clean d →
  CharField ext true (POST request !! "expected_total_users") = Clean e →
  CharField ext true (POST request !! "paid_users_count") = Clean c →
  ∃ cleaned,
    cleaned_data
      (SponsorshipRequestForm ext
         (<["organization_type" := ot]> (POST request))) = Some cleaned
    ∧ (POST request !! "website" = None
       ∨ POST request !! "website" = Some "" → cd_website cleaned = "")
    ∧ (POST request !! "paid_users_description" = None
       ∨ POST request !! "paid_users_description" = Some "" →
       cd_paid_users_description cleaned = "")
    ∧ (raised
         (fst (atomic
                 (sponsorship_transaction ext user (mkSession user) cleaned)
                 w)) = false →
       (∀ m, send_email_outcome ext m = None) →
       fst (sponsorship ext request user w) = Return (json_success [])).
Proof.
  intros H1 H2 H3 H4 H5 H6 Hweb Hpud Ht Hd He Hcount.
  assert (∃ v, URLField ext (MAX_ORG_URL_LENGTH ext) false
                 (POST request !! "website") = Clean v) as [vw Hvw].
  { destruct Hweb as [Hw | [Hw | Hw]]; [| |done];
      exists ""; by apply optional_field_empty; auto. }
  assert (∃ v, CharField ext false
                 (POST request !! "paid_users_description") = Clean v)
    as [vp Hvp].
  { destruct Hpud as [Hp | [Hp | Hp]]; [| |done];
      exists ""; by apply optional_field_empty; auto. }
  assert (Hc : cleaned_data
            (SponsorshipRequestForm ext
               (<["organization_type" := ot]> (POST request)))
          = Some (mkCleaned vw t d e c vp)).
  { unfold cleaned_data, SponsorshipRequestForm.
    cbn [f_website f_organization_type f_description f_expected_total_users
         f_paid_users_count f_paid_users_description].
    rewrite lookup_insert_eq.
    rewrite !lookup_insert_ne by done.
    by rewrite Hvw, Ht, Hd, He, Hcount, Hvp. }
  eexists. split; [exact Hc|].
  cbn [cd_website cd_paid_users_description]. split; [|split].
  - intros Hempty.
    destruct (optional_field_empty _ Hempty) as [Hu _]. congruence.
  - intros Hempty.
    destruct (optional_field_empty _ Hempty) as [_ Hu]. congruence.
  - intros Hok Hmail.
    rewrite (sponsorship_runs_body _ _ _ _ _ _ _ _ _ H1 H2 H3 H4 H5 H6).
    rewrite (sponsorship_view_valid _ _ _ _ _ _ _ _ _ _ Hc).
    destruct (atomic _ w) as [[name|e'] w1]; [|done].
    cbn. by rewrite Hmail.
Qed.

(** X22.  When the mail system raises, the view raises after the
    commit: the transaction is not undone and the store is what the
    transaction left. *)
Lemma sponsorship_mail_failure_keeps_commit
    request user ot web desc etu puc pud w cleaned name w1 :
  cleaned_data
    (SponsorshipRequestForm ext (<["organization_type" := ot]> (POST request)))
  = Some cleaned →
  atomic (sponsorship_transaction ext user (mkSession user) cleaned) w
  = (Return name, w1) →
  ∀ e, (∀ m, send_email_outcome ext m = Some e) →
  ∃ w',
    sponsorship_view ext request user ot web desc etu puc pud w = (Raise e, w')
    ∧ db w' = db w1.
Proof.
  intros Hc Htx e Hmail.
  rewrite (sponsorship_view_valid _ _ _ _ _ _ _ _ _ _ Hc), Htx. cbn.
  rewrite Hmail. eauto.
Qed.

End SponsorshipProperties.

(* ===================================================================== *)
(** * The properties on concrete requests *)
(* ===================================================================== *)

Lemma upgrade_billing_error_witness :
  do_upgrade Demo.backend_rejects (mkSession Demo.iago)
    (mkUpgradeRequest "send_invoice" "annual" "7:signature" "salt" false
       (Some "manual") (Some 3)) (db Demo.world)
  = (Raise (BillingError "not enough licenses"
              "You must invoice for at least 30 users."), Demo.store)
  ∧ ∃ w' r,
      upgrade_view Demo.settings Demo.backend_rejects Demo.iago
        "send_invoice" "annual" "7:signature" "salt" false
        (Some "manual") (Some 3) Demo.world
      = (Raise (BillingError "not enough licenses"
                  "You must invoice for at least 30 users."), w')
      ∧ log_records (trace w') = log_records (trace Demo.world) ++ [r]
      ∧ level r = WARNING
      ∧ args r = [ArgStr "not enough licenses"; ArgInt 5; ArgInt 1;
                  ArgStr "acme"; ArgStr "send_invoice"; ArgStr "annual";
                  ArgOptStr (Some "manual"); ArgOptInt (Some 3)]
      ∧ db w' = Demo.store.
Proof.
  split; [reflexivity|].
  apply (upgrade_billing_error_logged_and_reraised Demo.settings
           Demo.backend_rejects Demo.iago "send_invoice" "annual"
           "7:signature" "salt" false (Some "manual") (Some 3) Demo.world).
  reflexivity.
Defined.

Lemma upgrade_unexpected_failure_witness :
  ∃ w' r,
    upgrade_view Demo.settings Demo.backend_breaks Demo.iago
      "charge_automatically" "monthly" "7:signature" "salt" false None None
      Demo.world
    = (Raise (BillingError "uncaught exception during upgrade"
                "Something went wrong. Please contact admin@zulip.example."),
       w')
    ∧ log_records (trace w') = log_records (trace Demo.world) ++ [r]
    ∧ level r = ERROR
    ∧ exc_info r = Some (OtherException "connection reset by peer")
    ∧ stack_info r = true.
Proof.
  apply (upgrade_unexpected_failure_converted Demo.settings
           Demo.backend_breaks Demo.iago "charge_automatically" "monthly"
           "7:signature" "salt" false None None Demo.world
           (OtherException "connection reset by peer") Demo.store);
    reflexivity.
Defined.

Lemma upgrade_rejects_bitcoin_witness :
  ∃ var_name fault,
    upgrade Demo.settings Demo.healthy
      (Demo.post {[ "billing_modality" := "bitcoin";
                    "schedule" := "monthly";
                    "signed_seat_count" := "7:signature";
                    "salt" := "salt" ]})
      Demo.iago Demo.world
    = (Raise (ValidationError var_name fault), Demo.world)
    ∧ (var_name = "billing_modality" ∨ var_name = "schedule")
    ∧ (is_Some (request_var
                  (Demo.post {[ "billing_modality" := "bitcoin";
                                "schedule" := "monthly";
                                "signed_seat_count" := "7:signature";
                                "salt" := "salt" ]})
                  "billing_modality") →
       fault = InvalidValue).
Proof.
  apply upgrade_rejects_values_outside_enumeration.
  left. exists "bitcoin". split; [vm_compute; reflexivity|].
  intros Hin. apply list_elem_of_In in Hin. cbn in Hin.
  destruct Hin as [H | [H | []]]; discriminate H.
Defined.

Lemma initial_upgrade_dispatch_witness :
  fst (initial_upgrade Demo.settings Demo.healthy Demo.iago true false
         Demo.world_with_customer)
  = Return (HttpResponseRedirect "/billing/?onboarding=true").
Proof.
  destruct (initial_upgrade_dispatch Demo.settings Demo.healthy Demo.iago
              true false Demo.world_with_customer) as (_ & _ & Hhome & _).
  refine (Hhome eq_refl eq_refl eq_refl _ eq_refl (or_intror eq_refl)).
Defined.

(** C6, counterexample.  With billing enabled and a member of an
    organization that has no customer record and is not on the
    free-standard plan, the onboarding flag does not lead to the billing
    home page: the upgrade page is rendered.  With billing enabled and a
    sponsorship pending, a guest is not redirected either. *)
Lemma initial_upgrade_onboarding_without_customer :
  BILLING_ENABLED Demo.settings = true
  ∧ is_guest Demo.iago = false
  ∧ get_customer_by_realm Demo.healthy (db Demo.world) (realm_obj Demo.world)
    = None
  ∧ plan_type (realm_obj Demo.world) ≠ PLAN_TYPE_STANDARD_FREE Demo.healthy
  ∧ (∀ url,
       fst (initial_upgrade Demo.settings Demo.healthy Demo.iago true false
              Demo.world)
       ≠ Return (HttpResponseRedirect url))
  ∧ (∃ context,
       fst (initial_upgrade Demo.settings Demo.healthy Demo.iago true false
              Demo.world)
       = Return (render "corporate/upgrade.html" (Some context) 200))
  ∧ fst (initial_upgrade Demo.settings Demo.healthy Demo.guest false false
           Demo.world_pending)
    = Return (render "404.html" None 404).
Proof.
  repeat split; try done.
  eexists. vm_compute. reflexivity.
Qed.

Lemma sponsorship_failure_witness :
  ∃ w',
    sponsorship_view Demo.grant_fails (Demo.post Demo.sponsorship_form)
      Demo.iago "20" "  zulip.org " "A chat project" "10" "0" "" Demo.world
    = (Raise (OtherException "permission grant failed"), w')
    ∧ db w' = db Demo.world
    ∧ emails (trace w') = emails (trace Demo.world).
Proof.
  apply (sponsorship_failure_leaves_store_unchanged Demo.grant_fails
           (Demo.post Demo.sponsorship_form) Demo.iago "20" "  zulip.org "
           "A chat project" "10" "0" "" Demo.world
           (mkCleaned "http://zulip.org" 20 "A chat project" "10" "0" ""));
    vm_compute; reflexivity.
Defined.

(** Before the rollback the failing grant had written: the body of the
    transaction, run on its own, leaves the new row, the new org_type,
    the pending flag and the grant in the store.  After the view has
    raised, the store holds the old org_type again, while the object
    [user.realm] in memory keeps the value assigned to it. *)
Example grant_fails_after_writing :
  let w1 :=
    snd (sponsorship_transaction Demo.grant_fails Demo.iago
           (mkSession Demo.iago)
           (mkCleaned "http://zulip.org" 20 "A chat project" "10" "0" "")
           Demo.world) in
  length (sponsorship_requests (db w1)) = 1%nat
  ∧ org_type <$> realms (db w1) !! 1 = Some 20
  ∧ sponsorship_pending <$> customers (db w1) !! 1 = Some true
  ∧ billing_admins (db w1) = {[ 5 ]}
  ∧ let w' :=
      snd (sponsorship_view Demo.grant_fails
             (Demo.post Demo.sponsorship_form) Demo.iago "20"
             "  zulip.org " "A chat project" "10" "0" "" Demo.world) in
    org_type <$> realms (db w') !! 1 = Some 10
    ∧ org_type (realm_obj w') = 20.
Proof. vm_compute. done. Qed.

Lemma sponsorship_invalid_form_witness :
  let form :=
    SponsorshipRequestForm Demo.healthy
      (<["organization_type" := "twenty"]>
         (POST (Demo.post (<["description" := "  "]> Demo.sponsorship_form))))
  in
  error_list (f_organization_type form) = ["Enter a whole number."]
  ∧ error_list (f_description form) = ["This field is required."]
  ∧ sponsorship_view Demo.healthy
      (Demo.post (<["description" := "  "]> Demo.sponsorship_form))
      Demo.iago "twenty" "  zulip.org " "  " "10" "0" "" Demo.world
    = (Raise (BillingError "Form validation error"
                "Enter a whole number. This field is required."),
       Demo.world)
  ∧ substring "Enter a whole number."
      "Enter a whole number. This field is required."
  ∧ substring "This field is required."
      "Enter a whole number. This field is required.".
Proof.
  intros form.
  destruct (sponsorship_invalid_form Demo.healthy
              (Demo.post (<["description" := "  "]> Demo.sponsorship_form))
              Demo.iago "twenty" "  zulip.org " "  " "10" "0" "" Demo.world)
    as [Hrun Hsub]; [vm_compute; reflexivity|].
  split; [vm_compute; reflexivity|].
  split; [vm_compute; reflexivity|].
  split; [exact Hrun|].
  split.
  - apply (Hsub "Enter a whole number."). right. left. by left.
  - apply (Hsub "This field is required."). right. right. left. by left.
Defined.

(** The two complaints of that request, in the order of the fields. *)
Example sponsorship_two_invalid_fields :
  fst (sponsorship Demo.healthy
         (Demo.post (<["organization-type" := "twenty"]>
                       (<["description" := "  "]> Demo.sponsorship_form)))
         Demo.iago Demo.world)
  = Raise (BillingError "Form validation error"
             "Enter a whole number. This field is required.").
Proof. vm_compute. reflexivity. Qed.

Lemma sponsorship_org_type_write_witness :
  let run :=
    sponsorship_view Demo.healthy (Demo.post Demo.sponsorship_form)
      Demo.iago "20" "  zulip.org " "A chat project" "10" "0" ""
      Demo.world in
  realms (db Demo.world)
  = {[ 1 := {| realm_id := 1; string_id := "acme"; org_type := 10;
               plan_type := 1;
               demo_organization_scheduled_deletion_date := None |} ]}
  ∧ realm_saves (trace (snd run)) = [(1, ["org_type"])]
  ∧ ∃ row',
      realms (db (snd run)) = {[ 1 := row' ]}
      ∧ org_type row' = 20
      ∧ realm_id row' = 1
      ∧ string_id row' = "acme"
      ∧ plan_type row' = 1
      ∧ demo_organization_scheduled_deletion_date row' = None.
Proof.
  intros run. subst run. split; [reflexivity|].
  destruct (sponsorship_org_type_write Demo.healthy
              (Demo.post Demo.sponsorship_form) Demo.iago "20"
              "  zulip.org " "A chat project" "10" "0" "" Demo.world
              Demo.cleaned_form)
    as [_ Hdiff]; [vm_compute; reflexivity|].
  destruct Hdiff as [Hsaves Hrow]; [done | reflexivity |].
  split; [exact Hsaves|].
  destruct Hrow
    as (row & row' & Hlookup & Hrealms & Htype & Hid & Hsid & Hplan & Hdemo).
  - split; intros d; reflexivity.
  - reflexivity.
  - exists row'.
    change (realms (db Demo.world)) with ({[ 1 := Demo.acme ]} : gmap Z Realm)
      in *.
    rewrite lookup_singleton_eq in Hlookup. injection Hlookup as <-.
    split; [rewrite Hrealms; apply insert_singleton_eq|].
    split; [exact Htype|]. split; [exact Hid|]. split; [exact Hsid|].
    split; [exact Hplan | exact Hdemo].
Defined.

(** C8, counterexample.  A request that leaves [website] out, with
    every other field valid, would pass the form, which treats the field
    as optional; [sponsorship] rejects it all the same, because the
    variable is missing, and nothing is stored. *)
Lemma sponsorship_without_website_rejected :
  request_var (Demo.post (delete "website" Demo.sponsorship_form)) "website"
  = None
  ∧ is_valid
      (SponsorshipRequestForm Demo.healthy
         (<["organization_type" := "20"]>
            (POST (Demo.post (delete "website" Demo.sponsorship_form)))))
    = true
  ∧ sponsorship Demo.healthy
      (Demo.post (delete "website" Demo.sponsorship_form))
      Demo.iago Demo.world
    = (Raise (ValidationError "website" MissingVariable), Demo.world)
  ∧ fst (sponsorship Demo.healthy
           (Demo.post (delete "paid_users_description" Demo.sponsorship_form))
           Demo.iago Demo.world)
    = Raise (ValidationError "paid_users_description" MissingVariable).
Proof. repeat split; vm_compute; reflexivity. Qed.

Lemma sponsorship_optional_fields_witness :
  ∃ cleaned,
    cleaned_data
      (SponsorshipRequestForm Demo.healthy
         (<["organization_type" := "20"]>
            (POST (Demo.post (<["website" := ""]> Demo.sponsorship_form)))))
    = Some cleaned
    ∧ cd_website cleaned = ""
    ∧ cd_paid_users_description cleaned = ""
    ∧ fst (sponsorship Demo.healthy
             (Demo.post (<["website" := ""]> Demo.sponsorship_form))
             Demo.iago Demo.world)
      = Return (json_success []).
Proof.
  destruct (sponsorship_optional_fields_may_be_empty Demo.healthy
              (Demo.post (<["website" := ""]> Demo.sponsorship_form))
              Demo.iago Demo.world "20" "" "A chat project" "10" "0" ""
              20 "A chat project" "10" "0")
    as (cleaned & Hc & Hweb & Hpud & Hrun);
    try (vm_compute; reflexivity);
    try (right; left; vm_compute; reflexivity).
  exists cleaned. split; [exact Hc|].
  split; [apply Hweb; right; vm_compute; reflexivity|].
  split; [apply Hpud; right; vm_compute; reflexivity|].
  apply Hrun; [|reflexivity].
  vm_compute in Hc. injection Hc as <-. vm_compute. reflexivity.
Defined.

Lemma sponsorship_success_email_witness :
  ∃ before m,
    trace (snd (sponsorship_view Demo.healthy (Demo.post Demo.sponsorship_form)
                  Demo.iago "20" "  zulip.org " "A chat project" "10" "0" ""
                  Demo.world))
    = before ++ [EvAtomicCommit; EvSendEmail m]
    ∧ emails before = emails (trace Demo.world)
    ∧ emails
        (trace (snd (sponsorship_view Demo.healthy
                       (Demo.post Demo.sponsorship_form) Demo.iago "20"
                       "  zulip.org " "A chat project" "10" "0" ""
                       Demo.world)))
      = emails (trace Demo.world) ++ [m]
    ∧ template_prefix m = "zerver/emails/sponsorship_request"
    ∧ to_emails m = ["support@zulip.example"]
    ∧ reply_to_email m = "iago@acme.example".
Proof.
  apply (sponsorship_success_sends_one_email Demo.healthy
           (Demo.post Demo.sponsorship_form) Demo.iago "20" "  zulip.org "
           "A chat project" "10" "0" "" Demo.world (json_success [])).
  vm_compute. reflexivity.
Defined.

Lemma sponsorship_cleaned_and_raw_witness :
  ∃ cleaned row m,
    cleaned_data
      (SponsorshipRequestForm Demo.healthy
         (<["organization_type" := "20"]>
            (POST (Demo.post Demo.sponsorship_form)))) = Some cleaned
    ∧ org_website row = "http://zulip.org"
    ∧ org_website row = cd_website cleaned
    ∧ sponsorship_requests
        (db (snd (sponsorship_view Demo.healthy
                    (Demo.post Demo.sponsorship_form) Demo.iago "20"
                    "  zulip.org " "A chat project" "10" "0" ""
                    Demo.world)))
      = [row]
    ∧ ctx_website (email_context m) = "  zulip.org ".
Proof.
  destruct (sponsorship_row_is_cleaned_email_is_raw Demo.healthy
              (Demo.post Demo.sponsorship_form) Demo.iago "20"
              "  zulip.org " "A chat project" "10" "0" "" Demo.world
              (json_success [])
              (snd (sponsorship_view Demo.healthy
                      (Demo.post Demo.sponsorship_form) Demo.iago "20"
                      "  zulip.org " "A chat project" "10" "0" ""
                      Demo.world)))
    as (cleaned & row & m & Hc & _ & Hweb & _ & _ & _ & _ & _ & Hstore & _
        & Hraw & _);
    [vm_compute; reflexivity|].
  exists cleaned, row, m. split; [exact Hc|].
  split.
  { rewrite Hweb. vm_compute in Hc. by injection Hc as <-. }
  split; [exact Hweb|]. split; [|exact Hraw].
  apply Hstore; intros d; reflexivity.
Defined.

(* ===================================================================== *)
(** * Further properties of upgrade *)
(* ===================================================================== *)

Section UpgradeFurther.
Context (settings : Settings) (ext : Collaborators).

(** X1.  When the billing back-end returns, [upgrade] answers with the
    back-end's data unchanged; the back-end was called once, with an
    [UpgradeRequest] holding the seven parameters, and nothing was
    logged. *)
Theorem upgrade_success_returns_backend_data
    user bm sc ssc salt onb lm lic w data store' :
  do_upgrade ext (mkSession user)
    (mkUpgradeRequest bm sc ssc salt onb lm lic) (db w)
  = (Return data, store') →
  ∃ w',
    upgrade_view settings ext user bm sc ssc salt onb lm lic w
    = (Return (json_success data), w')
    ∧ trace w'
      = trace w ++ [EvDoUpgrade (user_id user)
                      (mkUpgradeRequest bm sc ssc salt onb lm lic)]
    ∧ log_records (trace w') = log_records (trace w)
    ∧ db w' = store'
    ∧ realm_obj w' = realm_obj w.
Proof.
  intros Hup. unfold upgrade_view. unfold_monad. cbn. rewrite Hup. cbn.
  eexists. split; [reflexivity|]. cbn.
  repeat split. unfold log_records. rewrite omap_app. cbn.
  apply app_nil_r.
Qed.

Ltac upgrade_body_cases :=
  unfold upgrade_view, billing_logger_warning, billing_logger_exception;
  unfold_monad; cbn;
  match goal with
  | |- context [do_upgrade ?c ?s ?r ?d] =>
      destruct (do_upgrade c s r d) as [[?data|[]] ?store']; cbn
  end.

(** X2.  Whatever the billing back-end raises, the body of [upgrade]
    raises nothing but a [BillingError]. *)
Theorem upgrade_view_raises_only_billing_error
    user bm sc ssc salt onb lm lic w e :
  fst (upgrade_view settings ext user bm sc ssc salt onb lm lic w) = Raise e →
  is_billing_error e = true.
Proof.
  upgrade_body_cases; intros; simplify_eq; done.
Qed.

(** X3.  Variables of [upgrade] that the request leaves out take their
    declared defaults: onboarding is false, license_management and
    licenses are absent. *)
Theorem upgrade_optional_variables_default request user w bm sc ssc salt :
  request_var request "billing_modality" = Some bm →
  bm ∈ VALID_BILLING_MODALITY_VALUES →
  request_var request "schedule" = Some sc →
  sc ∈ VALID_BILLING_SCHEDULE_VALUES →
  request_var request "signed_seat_count" = Some ssc →
  request_var request "salt" = Some salt →
  request_var request "onboarding" = None →
  request_var request "license_management" = None →
  request_var request "licenses" = None →
  upgrade settings ext request user w
  = upgrade_view settings ext user bm sc ssc salt false None None w.
Proof.
  intros H1 V1 H2 V2 H3 H4 H5 H6 H7.
  apply upgrade_runs_body;
    unfold REQ_required, REQ_default, check_string_in, no_validator;
    rewrite ?H1, ?H2, ?H3, ?H4, ?H5, ?H6, ?H7;
    rewrite ?bool_decide_eq_true_2 by done; done.
Qed.

(** X4.  [upgrade] raises in two ways only: a validation error of one
    of its variables, with the world left as it was, or a
    [BillingError]. *)
Theorem upgrade_raises_validation_or_billing request user w e w' :
  upgrade settings ext request user w = (Raise e, w') →
  (∃ var_name fault, e = ValidationError var_name fault ∧ w' = w)
  ∨ is_billing_error e = true.
Proof.
  unfold upgrade, REQ_required, REQ_default, check_string_in, no_validator,
    json_validator, optional.
  unfold_monad.
  repeat (case_match; simplify_eq; try (intros; simplify_eq; left; eauto; fail)).
  all: try (intros; simplify_eq; left; eauto; fail).
  all: upgrade_body_cases; intros; simplify_eq; by right.
Qed.

End UpgradeFurther.

(* ===================================================================== *)
(** * Further properties of initial_upgrade *)
(* ===================================================================== *)

Section InitialUpgradeFurther.
Context (settings : Settings) (ext : Collaborators).

(** What a rendered upgrade page says about the run that produced it. *)
Lemma initial_upgrade_page user onboarding manual w template context status :
  fst (initial_upgrade settings ext user onboarding manual w)
  = Return (render template (Some context) status) →
  let customer := get_customer_by_realm ext (db w) (realm_obj w) in
  let seat_count := get_latest_seat_count ext (db w) (realm_obj w) in
  BILLING_ENABLED settings = true
  ∧ is_guest user = false
  ∧ customer_and customer sponsorship_pending = false
  ∧ plan_type (realm_obj w) ≠ PLAN_TYPE_STANDARD_FREE ext
  ∧ customer_and customer
      (λ c, bool_decide (is_Some (get_current_plan_by_customer ext (db w) c))
            || onboarding) = false
  ∧ template = "corporate/upgrade.html"
  ∧ status = 200
  ∧ uc_seat_count context = seat_count
  ∧ pp_seat_count (page_params context) = seat_count
  ∧ (uc_signed_seat_count context, uc_salt context)
    = sign_string ext (pretty seat_count)
  ∧ min_invoiced_licenses context
    = Z.max seat_count (MIN_INVOICED_LICENSES ext)
  ∧ percent_off (page_params context)
    = py_float ext
        match customer with
        | Some c => match default_discount c with
                    | Some d => d
                    | None => 0%Q
                    end
        | None => 0%Q
        end
  ∧ uc_exempt_from_license_number_check context
    = customer_and customer exempt_from_license_number_check.
Proof.
  unfold initial_upgrade. unfold_monad. cbn -[pretty].
  destruct (BILLING_ENABLED settings); cbn -[pretty]; [|done].
  destruct (is_guest user); cbn -[pretty]; [done|].
  destruct (customer_and _ sponsorship_pending); cbn -[pretty]; [done|].
  destruct (plan_type (realm_obj w) =? _) eqn:Hplan; cbn -[pretty]; [done|].
  apply Z.eqb_neq in Hplan.
  destruct (customer_and _ (λ c, _ || onboarding)); cbn -[pretty]; [done|].
  destruct (sign_string ext _) as [signed salt] eqn:Hsign. cbn -[pretty].
  intros; simplify_eq. cbn -[pretty]. done.
Qed.

(** X5.  The token on the upgrade page signs the seat count the page
    shows: both seat counts of the context are the latest seat count of
    the organization, and the signed token and salt are those of
    [sign_string] on its decimal text. *)
Theorem upgrade_page_signs_shown_seat_count
    user onboarding manual w context :
  fst (initial_upgrade settings ext user onboarding manual w)
  = Return (render "corporate/upgrade.html" (Some context) 200) →
  uc_seat_count context = get_latest_seat_count ext (db w) (realm_obj w)
  ∧ pp_seat_count (page_params context) = uc_seat_count context
  ∧ (uc_signed_seat_count context, uc_salt context)
    = sign_string ext (pretty (uc_seat_count context)).
Proof.
  intros Hpage. apply initial_upgrade_page in Hpage.
  destruct Hpage as (_ & _ & _ & _ & _ & _ & _ & H1 & H2 & H3 & _).
  rewrite H1, H2. done.
Qed.

(** X6.  The minimum of invoiced licenses on the upgrade page is the
    larger of the seat count and [MIN_INVOICED_LICENSES]: it is below
    neither and equal to one of them. *)
Theorem upgrade_page_min_invoiced_licenses
    user onboarding manual w context :
  fst (initial_upgrade settings ext user onboarding manual w)
  = Return (render "corporate/upgrade.html" (Some context) 200) →
  uc_seat_count context ≤ min_invoiced_licenses context
  ∧ MIN_INVOICED_LICENSES ext ≤ min_invoiced_licenses context
  ∧ (min_invoiced_licenses context = uc_seat_count context
     ∨ min_invoiced_licenses context = MIN_INVOICED_LICENSES ext).
Proof.
  intros Hpage. apply initial_upgrade_page in Hpage.
  destruct Hpage as (_ & _ & _ & _ & _ & _ & _ & H1 & _ & _ & Hmin & _).
  rewrite H1, Hmin. lia.
Qed.

(** X7.  The discount on the upgrade page is a float: without a
    customer record, or for a customer without a default discount, it
    is [float(Decimal(0))]; for a customer with default discount [d] it
    is [float(d)], the float nearest to [d] and not always [d] itself.
    The exemption from the license number check is the customer's, and
    false without a customer record. *)
Theorem upgrade_page_discount user onboarding manual w context :
  fst (initial_upgrade settings ext user onboarding manual w)
  = Return (render "corporate/upgrade.html" (Some context) 200) →
  (get_customer_by_realm ext (db w) (realm_obj w) = None →
   percent_off (page_params context) = py_float ext 0%Q
   ∧ uc_exempt_from_license_number_check context = false)
  ∧ (∀ c, get_customer_by_realm ext (db w) (realm_obj w) = Some c →
     uc_exempt_from_license_number_check context
     = exempt_from_license_number_check c
     ∧ (default_discount c = None →
        percent_off (page_params context) = py_float ext 0%Q)
     ∧ (∀ d, default_discount c = Some d →
        percent_off (page_params context) = py_float ext d)).
Proof.
  intros Hpage. apply initial_upgrade_page in Hpage.
  destruct Hpage as (_ & _ & _ & _ & _ & _ & _ & _ & _ & _ & _ & Hoff & Hex).
  rewrite Hoff, Hex. split.
  - intros ->. done.
  - intros c ->. cbn. split; [done|]. split.
    + by intros ->.
    + by intros d ->.
Qed.

(** X8.  The upgrade page is shown only to a member of an organization
    that is neither waiting for a sponsorship nor on the free-standard
    plan and, when it has a customer record, has no current plan and did
    not come from onboarding. *)
Theorem upgrade_page_only_without_plan user onboarding manual w context :
  fst (initial_upgrade settings ext user onboarding manual w)
  = Return (render "corporate/upgrade.html" (Some context) 200) →
  BILLING_ENABLED settings = true
  ∧ is_guest user = false
  ∧ plan_type (realm_obj w) ≠ PLAN_TYPE_STANDARD_FREE ext
  ∧ ∀ c, get_customer_by_realm ext (db w) (realm_obj w) = Some c →
      sponsorship_pending c = false
      ∧ get_current_plan_by_customer ext (db w) c = None
      ∧ onboarding = false.
Proof.
  intros Hpage. apply initial_upgrade_page in Hpage.
  destruct Hpage as (Hb & Hg & Hpend & Hfree & Hplan & _).
  do 3 (split; [done|]). intros c Hc. rewrite Hc in Hpend, Hplan.
  cbn in Hpend, Hplan. apply orb_false_iff in Hplan as [Hplan ->].
  apply bool_decide_eq_false in Hplan.
  split; [done|]. split; [|done].
  by apply eq_None_not_Some.
Qed.

End InitialUpgradeFurther.

(* ===================================================================== *)
(** * Further properties of the sponsorship form *)
(* ===================================================================== *)

Section FormFurther.
Context (ext : Collaborators).

Lemma blank_to_python value :
  is_blank ext value → CharField_to_python ext value = "".
Proof.
  intros [-> | [-> | (s & -> & Hs)]]; [done | done |].
  unfold CharField_to_python. by destruct (String.eqb s "").
Qed.

Lemma required_CharField_blank value :
  is_blank ext value → CharField ext true value = Errors [msg_required].
Proof.
  intros Hb. unfold CharField, Field_clean.
  by rewrite (blank_to_python _ Hb).
Qed.

(** What a field that cleaned to [x] went through. *)
Lemma Field_clean_Clean required to_python validators value x :
  Field_clean required to_python validators value = Clean x →
  to_python value = Clean x
  ∧ ((x = "" ∧ required = false)
     ∨ (x ≠ "" ∧ run_validators validators x = [])).
Proof.
  unfold Field_clean. destruct (to_python value) as [v|ms]; [|done].
  destruct (String.eqb v "") eqn:Hv.
  - apply String.eqb_eq in Hv as ->.
    destruct required; [done|]. intros [= <-]. auto.
  - apply String.eqb_neq in Hv.
    destruct (run_validators validators v) eqn:Hrun; [|done].
    intros [= <-]. auto.
Qed.

(** A form with a failed field is not valid, and the view answers it
    with the combined message, leaving the world alone. *)
Lemma failed_field_rejects
    request user ot web desc etu puc pud w field messages :
  let form :=
    SponsorshipRequestForm ext (<["organization_type" := ot]> (POST request))
  in
  (field, messages) ∈ errors form →
  sponsorship_view ext request user ot web desc etu puc pud w
  = (Raise (BillingError "Form validation error" (combined_message form)), w)
  ∧ ∀ complaint, complaint ∈ messages →
      substring complaint (combined_message form).
Proof.
  intros form Hin.
  assert (Hnone : cleaned_data form = None).
  { apply not_valid_cleaned_data. unfold is_valid.
    destruct (errors form); [by apply elem_of_nil in Hin | done]. }
  split.
  - unfold sponsorship_view. unfold_monad. cbn. fold form.
    by rewrite Hnone.
  - intros complaint Hc. apply join_contains.
    apply list_elem_of_In, in_flat_map. exists (field, messages).
    split; by apply list_elem_of_In.
Qed.

(** X9.  A required text field (description, expected_total_users,
    paid_users_count) that is absent from the form body, empty, or blank
    after stripping fails with "This field is required."; [sponsorship]
    then raises the form validation error, whose message contains that
    complaint, and changes nothing. *)
Theorem sponsorship_required_text_blank
    request user ot web desc etu puc pud w name :
  name ∈ ["description"; "expected_total_users"; "paid_users_count"] →
  is_blank ext (POST request !! name) →
  let form :=
    SponsorshipRequestForm ext (<["organization_type" := ot]> (POST request))
  in
  (name, [msg_required]) ∈ errors form
  ∧ sponsorship_view ext request user ot web desc etu puc pud w
    = (Raise (BillingError "Form validation error" (combined_message form)),
       w)
  ∧ substring msg_required (combined_message form).
Proof.
  intros Hname Hblank form.
  assert (Hin : (name, [msg_required]) ∈ errors form).
  { unfold errors, form, SponsorshipRequestForm.
    cbn [f_website f_organization_type f_description f_expected_total_users
         f_paid_users_count f_paid_users_description].
    rewrite !elem_of_app.
    apply elem_of_cons in Hname as [-> | Hname];
      [|apply elem_of_cons in Hname as [-> | Hname];
        [|apply list_elem_of_singleton in Hname as ->]].
    - right; right; left.
      rewrite lookup_insert_ne by done.
      rewrite (required_CharField_blank _ Hblank). by left.
    - right; right; right; left.
      rewrite lookup_insert_ne by done.
      rewrite (required_CharField_blank _ Hblank). by left.
    - right; right; right; right; left.
      rewrite lookup_insert_ne by done.
      rewrite (required_CharField_blank _ Hblank). by left. }
  split; [done|].
  destruct (failed_field_rejects request user ot web desc etu puc pud w
              _ _ Hin) as [Hrun Hsub].
  split; [exact Hrun|]. apply Hsub. by left.
Qed.

(** X10.  An organization type that is empty fails with "This field is
    required.", and one that is not a whole number with "Enter a whole
    number."; either way [sponsorship] raises the form validation error
    and changes nothing. *)
Theorem sponsorship_organization_type_not_a_number
    request user ot web desc etu puc pud w :
  py_int ext ot = None ∨ ot = "" →
  let form :=
    SponsorshipRequestForm ext (<["organization_type" := ot]> (POST request))
  in
  let complaint := if String.eqb ot "" then msg_required
                   else msg_invalid_integer in
  f_organization_type form = Errors [complaint]
  ∧ sponsorship_view ext request user ot web desc etu puc pud w
    = (Raise (BillingError "Form validation error" (combined_message form)),
       w)
  ∧ substring complaint (combined_message form).
Proof.
  intros Hbad form complaint.
  assert (Hf : f_organization_type form = Errors [complaint]).
  { unfold form, SponsorshipRequestForm, complaint.
    cbn [f_organization_type]. rewrite lookup_insert_eq.
    unfold IntegerField. destruct (String.eqb ot "") eqn:Hot; [done|].
    destruct Hbad as [-> | ->]; [done|]. by rewrite String.eqb_refl in Hot. }
  split; [done|].
  assert (Hin : ("organization_type", [complaint]) ∈ errors form).
  { unfold errors. rewrite Hf. rewrite !elem_of_app. right; left. by left. }
  destruct (failed_field_rejects request user ot web desc etu puc pud w
              _ _ Hin) as [Hrun Hsub].
  split; [exact Hrun|]. apply Hsub. by left.
Qed.

(** X11.  [sponsorship] validates the organization type it received as
    the variable "organization-type": a field named "organization_type"
    in the form body has no effect on the run. *)
Theorem sponsorship_ignores_posted_organization_type
    request user x ot web desc etu puc pud w :
  sponsorship_view ext
    {| POST := <["organization_type" := x]> (POST request);
       GET := GET request |}
    user ot web desc etu puc pud w
  = sponsorship_view ext request user ot web desc etu puc pud w.
Proof.
  unfold sponsorship_view. cbn [POST]. by rewrite insert_insert_eq.
Qed.

(** X12.  The cleaned data of a valid form keep the limits of the
    fields: the three required texts are not empty, the website is
    empty or accepted by the URL validator and has at most
    [MAX_ORG_URL_LENGTH] characters (by [len], not bytes), and no text
    holds a null character. *)
Theorem cleaned_data_within_limits data cleaned :
  cleaned_data (SponsorshipRequestForm ext data) = Some cleaned →
  cd_description cleaned ≠ ""
  ∧ cd_expected_total_users cleaned ≠ ""
  ∧ cd_paid_users_count cleaned ≠ ""
  ∧ (cd_website cleaned = "" ∨ url_validator ext (cd_website cleaned) = true)
  ∧ (py_len (cd_website cleaned) ≤ MAX_ORG_URL_LENGTH ext)%nat
  ∧ has_null_character (cd_website cleaned) = false
  ∧ has_null_character (cd_description cleaned) = false
  ∧ has_null_character (cd_expected_total_users cleaned) = false
  ∧ has_null_character (cd_paid_users_count cleaned) = false
  ∧ has_null_character (cd_paid_users_description cleaned) = false.
Proof.
  unfold cleaned_data, SponsorshipRequestForm.
  cbn [f_website f_organization_type f_description f_expected_total_users
       f_paid_users_count f_paid_users_description].
  destruct (URLField ext _ _ _) as [vw|] eqn:Hw; [|done].
  destruct (IntegerField ext _) as [vt|]; [|done].
  destruct (CharField ext true (data !! "description")) as [vd|] eqn:Hd;
    [|done].
  destruct (CharField ext true (data !! "expected_total_users")) as [ve|]
    eqn:He; [|done].
  destruct (CharField ext true (data !! "paid_users_count")) as [vc|] eqn:Hc;
    [|done].
  destruct (CharField ext false _) as [vp|] eqn:Hp; [|done].
  intros [= <-]. cbn. unfold URLField, CharField in Hw, Hd, He, Hc, Hp.
  apply Field_clean_Clean in Hw as [_ Hw], Hd as [_ Hd], He as [_ He],
    Hc as [_ Hc], Hp as [_ Hp].
  assert (Hnull : ∀ v, run_validators [ProhibitNullCharactersValidator] v = []
                       → has_null_character v = false).
  { intros v. unfold run_validators, ProhibitNullCharactersValidator. cbn.
    by destruct (has_null_character v). }
  destruct Hd as [[_ ?]|[Hd1 Hd2]]; [done|].
  destruct He as [[_ ?]|[He1 He2]]; [done|].
  destruct Hc as [[_ ?]|[Hc1 Hc2]]; [done|].
  do 3 (split; [done|]).
  assert (Hweb : (vw = "" ∨ url_validator ext vw = true)
                 ∧ (py_len vw ≤ MAX_ORG_URL_LENGTH ext)%nat
                 ∧ has_null_character vw = false).
  { destruct Hw as [[-> _]|[_ Hw]].
    - cbn. split; [by left|]. split; [lia|done].
    - revert Hw. unfold run_validators, URLValidator, MaxLengthValidator,
        ProhibitNullCharactersValidator. cbn [flat_map].
      destruct (url_validator ext vw);
        destruct (Nat.ltb_spec (MAX_ORG_URL_LENGTH ext) (py_len vw));
        destruct (has_null_character vw); cbn; try done.
      intros _. split; [by right|]. split; [lia|done]. }
  destruct Hweb as (Hw1 & Hw2 & Hw3).
  do 3 (split; [done|]).
  do 3 (split; [by apply Hnull|]).
  destruct Hp as [[-> _]|[_ Hp]]; [done | by apply Hnull].
Qed.

(** X13.  A website that still has more than [MAX_ORG_URL_LENGTH]
    characters (by [len], not bytes) after [URLField.to_python] is
    refused with the message that names the limit and the number of
    characters found; [sponsorship] raises the form validation error
    with that complaint and changes nothing. *)
Theorem sponsorship_website_too_long
    request user ot web desc etu puc pud w v :
  URLField_to_python ext (POST request !! "website") = Clean v →
  (MAX_ORG_URL_LENGTH ext < py_len v)%nat →
  let form :=
    SponsorshipRequestForm ext (<["organization_type" := ot]> (POST request))
  in
  let complaint :=
    msg_max_length (MAX_ORG_URL_LENGTH ext) (py_len v) in
  complaint ∈ error_list (f_website form)
  ∧ sponsorship_view ext request user ot web desc etu puc pud w
    = (Raise (BillingError "Form validation error" (combined_message form)),
       w)
  ∧ substring complaint (combined_message form).
Proof.
  intros Hpy Hlong form complaint.
  assert (Hf : ∃ ms, f_website form = Errors ms ∧ complaint ∈ ms).
  { unfold form, SponsorshipRequestForm. cbn [f_website].
    rewrite lookup_insert_ne by done.
    unfold URLField, Field_clean. rewrite Hpy.
    destruct (String.eqb v "") eqn:Hv.
    { apply String.eqb_eq in Hv as ->. cbn in Hlong. lia. }
    assert (Hin : complaint
              ∈ run_validators
                  [URLValidator ext;
                   MaxLengthValidator (MAX_ORG_URL_LENGTH ext);
                   ProhibitNullCharactersValidator] v).
    { unfold run_validators. cbn [flat_map]. rewrite !elem_of_app.
      right; left. unfold MaxLengthValidator.
      apply Nat.ltb_lt in Hlong. rewrite Hlong. by left. }
    destruct (run_validators _ v) as [|m ms] eqn:Hrun.
    - by apply elem_of_nil in Hin.
    - eauto. }
  destruct Hf as (ms & Hf & Hin). split; [by rewrite Hf|].
  assert (Herr : ("website", ms) ∈ errors form).
  { unfold errors. rewrite Hf. rewrite !elem_of_app. left. by left. }
  destruct (failed_field_rejects request user ot web desc etu puc pud w
              _ _ Herr) as [Hrun Hsub].
  split; [exact Hrun|]. by apply Hsub.
Qed.

Lemma join_starts_nonempty sep p rest : p ≠ "" → join sep (p :: rest) ≠ "".
Proof.
  intros Hp. destruct rest as [|q rest]; [done|].
  change (p +:+ sep +:+ join sep (q :: rest) ≠ "").
  destruct p as [|c p]; [done|].
  change (String c (p +:+ sep +:+ join sep (q :: rest)) ≠ ""). done.
Qed.

Lemma field_messages_start_nonempty required to_python validators value ms :
  (∀ value' ms', to_python value' = Errors ms' → starts_nonempty ms') →
  (∀ x m, m ∈ run_validators validators x → m ≠ "") →
  Field_clean required to_python validators value = Errors ms →
  starts_nonempty ms.
Proof.
  intros Hpy Hval. unfold Field_clean.
  destruct (to_python value) as [v|ms'] eqn:Htp.
  - destruct (String.eqb v "").
    + destruct required; [|done]. intros [= <-]. by exists msg_required, [].
    + destruct (run_validators validators v) as [|m rest] eqn:Hrun; [done|].
      intros [= <-]. exists m, rest. split; [done|].
      apply (Hval v). rewrite Hrun. by left.
  - intros [= <-]. eauto.
Qed.

Lemma validator_messages_nonempty max_length x m :
  m ∈ run_validators
        [URLValidator ext; MaxLengthValidator max_length;
         ProhibitNullCharactersValidator] x
  ∨ m ∈ run_validators [ProhibitNullCharactersValidator] x →
  m ≠ "".
Proof.
  unfold run_validators, URLValidator, MaxLengthValidator,
    ProhibitNullCharactersValidator. cbn [flat_map].
  rewrite !elem_of_app.
  assert (Hmax : msg_max_length max_length (py_len x) ≠ "").
  { unfold msg_max_length. cbv [String.append]. done. }
  intros Hin.
  repeat match goal with
         | H : _ ∨ _ |- _ => destruct H
         | H : _ ∈ (if ?b then _ else _) |- _ => destruct b
         | H : _ ∈ [] |- _ => by apply elem_of_nil in H
         | H : _ ∈ [_] |- _ => apply list_elem_of_singleton in H as ->
         end; done.
Qed.

(** X14.  The message of the form validation error is never empty. *)
Theorem sponsorship_invalid_form_message_not_empty
    request user ot web desc etu puc pud w :
  is_valid
    (SponsorshipRequestForm ext (<["organization_type" := ot]> (POST request)))
  = false →
  ∃ message,
    fst (sponsorship_view ext request user ot web desc etu puc pud w)
    = Raise (BillingError "Form validation error" message)
    ∧ message ≠ "".
Proof.
  intros Hinvalid. pose proof Hinvalid as Hnone.
  apply not_valid_cleaned_data in Hnone.
  eexists. split.
  { unfold sponsorship_view. unfold_monad. cbn. by rewrite Hnone. }
  unfold combined_message.
  set (form := SponsorshipRequestForm ext _) in *.
  assert (Hstart : starts_nonempty (flat_map snd (errors form))).
  { assert (Hchar : ∀ required value ms,
              CharField ext required value = Errors ms → starts_nonempty ms).
    { intros required value ms. unfold CharField.
      apply field_messages_start_nonempty; [done|].
      intros x m Hm. eapply (validator_messages_nonempty 0). by right. }
    assert (Hurl : ∀ value ms,
              URLField ext (MAX_ORG_URL_LENGTH ext) false value = Errors ms →
              starts_nonempty ms).
    { intros value ms. unfold URLField.
      apply field_messages_start_nonempty.
      - intros value' ms'. unfold URLField_to_python.
        destruct (String.eqb _ ""); [done|].
        destruct (url_to_python ext _); [done|].
        intros [= <-]. by exists msg_invalid_url, [].
      - intros x m Hm. eapply validator_messages_nonempty. by left. }
    assert (Hint : ∀ value ms,
              IntegerField ext value = Errors ms → starts_nonempty ms).
    { intros value ms. unfold IntegerField.
      destruct value as [s|].
      - destruct (String.eqb s "").
        + intros [= <-]. by exists msg_required, [].
        + destruct (py_int ext s); [done|].
          intros [= <-]. by exists msg_invalid_integer, [].
      - intros [= <-]. by exists msg_required, []. }
    revert Hinvalid. unfold is_valid, errors.
    unfold form, SponsorshipRequestForm.
    cbn [f_website f_organization_type f_description f_expected_total_users
         f_paid_users_count f_paid_users_description].
    destruct (URLField ext _ _ _) as [?|m1] eqn:H1;
      [|destruct (Hurl _ _ H1) as (p & r & -> & Hp); intros _;
        eexists _, _; split; [cbn; reflexivity | done]].
    destruct (IntegerField ext _) as [?|m2] eqn:H2;
      [|destruct (Hint _ _ H2) as (p & r & -> & Hp); intros _;
        eexists _, _; split; [cbn; reflexivity | done]].
    destruct (CharField ext true (_ !! "description")) as [?|m3] eqn:H3;
      [|destruct (Hchar _ _ _ H3) as (p & r & -> & Hp); intros _;
        eexists _, _; split; [cbn; reflexivity | done]].
    destruct (CharField ext true (_ !! "expected_total_users")) as [?|m4]
      eqn:H4;
      [|destruct (Hchar _ _ _ H4) as (p & r & -> & Hp); intros _;
        eexists _, _; split; [cbn; reflexivity | done]].
    destruct (CharField ext true (_ !! "paid_users_count")) as [?|m5] eqn:H5;
      [|destruct (Hchar _ _ _ H5) as (p & r & -> & Hp); intros _;
        eexists _, _; split; [cbn; reflexivity | done]].
    destruct (CharField ext false _) as [?|m6] eqn:H6; [done|].
    destruct (Hchar _ _ _ H6) as (p & r & -> & Hp). intros _.
    eexists _, _; split; [cbn; reflexivity | done]. }
  destruct Hstart as (p & rest & -> & Hp). by apply join_starts_nonempty.
Qed.

End FormFurther.

(* ===================================================================== *)
(** * Further properties of sponsorship *)
(* ===================================================================== *)

Section SponsorshipFurther.
Context (ext : Collaborators).

Lemma set_org_type_same (r : Realm) : set_org_type (org_type r) r = r.
Proof. by destruct r. Qed.

(** A transaction that returns has issued its calls in the order of the
    source, and has left the object in memory with the new org_type. *)
Lemma transaction_returns user cleaned w0 name w1 :
  sponsorship_transaction ext user (mkSession user) cleaned w0
  = (Return name, w1) →
  trace w1
  = trace w0
    ++ [EvSaveSponsorshipRequest
          (new_sponsorship_request (realm_obj w0) user cleaned)]
    ++ (if org_type (realm_obj w0) =? cd_organization_type cleaned then []
        else [EvSaveRealm (realm_id (realm_obj w0)) ["org_type"]])
    ++ [EvUpdateCustomerSponsorshipStatus (user_id user) true;
        EvMakeUserBillingAdmin (user_id user)]
  ∧ name = get_org_type_display_name ext (cd_organization_type cleaned)
  ∧ realm_obj w1 = set_org_type (cd_organization_type cleaned) (realm_obj w0).
Proof.
  unfold sponsorship_transaction, save_sponsorship_request, save_realm.
  unfold_monad. cbn.
  destruct (store_accepts_request ext _); cbn; [|done].
  destruct (org_type (realm_obj w0) =? _) eqn:Heq; cbn.
  - apply Z.eqb_eq in Heq.
    destruct (update_customer_sponsorship_status ext _ _ _)
      as [[[]|e1] d1]; cbn; [|done].
    destruct (do_make_user_billing_admin ext _ _) as [[[]|e2] d2];
      cbn; [|done].
    intros; simplify_eq; cbn. rewrite <- !app_assoc. cbn.
    rewrite <- Heq, set_org_type_same. done.
  - destruct (realms (db w0) !! _); cbn; [|done].
    destruct (store_accepts_org_type ext _); cbn; [|done].
    destruct (update_customer_sponsorship_status ext _ _ _)
      as [[[]|e1] d1]; cbn; [|done].
    destruct (do_make_user_billing_admin ext _ _) as [[[]|e2] d2];
      cbn; [|done].
    intros; simplify_eq; cbn. rewrite <- !app_assoc. done.
Qed.

(** X15.  A successful [sponsorship] issues its calls in this order and
    no others: the transaction is entered, the request row is saved,
    the realm is saved with [update_fields=["org_type"]] when the
    organization type changes, the customer is marked
    sponsorship-pending, the requester is made billing administrator,
    the transaction commits, the message is sent; the answer is the
    success envelope without data. *)
Theorem sponsorship_success_call_order
    request user ot web desc etu puc pud w response w' :
  sponsorship_view ext request user ot web desc etu puc pud w
  = (Return response, w') →
  ∃ cleaned m,
    cleaned_data
      (SponsorshipRequestForm ext
         (<["organization_type" := ot]> (POST request))) = Some cleaned
    ∧ response = json_success []
    ∧ trace w'
      = trace w
        ++ [EvAtomicEnter;
            EvSaveSponsorshipRequest
              (new_sponsorship_request (realm_obj w) user cleaned)]
        ++ (if org_type (realm_obj w) =? cd_organization_type cleaned
            then []
            else [EvSaveRealm (realm_id (realm_obj w)) ["org_type"]])
        ++ [EvUpdateCustomerSponsorshipStatus (user_id user) true;
            EvMakeUserBillingAdmin (user_id user);
            EvAtomicCommit;
            EvSendEmail m].
Proof.
  intros Hrun. apply sponsorship_view_success in Hrun
    as (cleaned & name & w2 & m & Hc & Htx & -> & -> & _).
  apply transaction_returns in Htx as (Htrace & _ & _).
  exists cleaned, m. split; [done|]. split; [done|].
  cbn. rewrite Htrace. cbn. rewrite <- !app_assoc. cbn.
  by destruct (org_type (realm_obj w) =? _).
Qed.

(** X16.  After a successful [sponsorship] the object [user.realm] in
    memory carries the cleaned organization type, and its other
    attributes are what they were. *)
Theorem sponsorship_success_realm_object
    request user ot web desc etu puc pud w response w' :
  sponsorship_view ext request user ot web desc etu puc pud w
  = (Return response, w') →
  ∃ cleaned,
    cleaned_data
      (SponsorshipRequestForm ext
         (<["organization_type" := ot]> (POST request))) = Some cleaned
    ∧ org_type (realm_obj w') = cd_organization_type cleaned
    ∧ realm_id (realm_obj w') = realm_id (realm_obj w)
    ∧ string_id (realm_obj w') = string_id (realm_obj w)
    ∧ plan_type (realm_obj w') = plan_type (realm_obj w)
    ∧ demo_organization_scheduled_deletion_date (realm_obj w')
      = demo_organization_scheduled_deletion_date (realm_obj w).
Proof.
  intros Hrun. apply sponsorship_view_success in Hrun
    as (cleaned & name & w2 & m & Hc & Htx & -> & _).
  apply transaction_returns in Htx as (_ & _ & Hobj).
  exists cleaned. split; [done|]. cbn. rewrite Hobj. done.
Qed.

(** X17.  The message of a successful [sponsorship] names the
    organization type by the display name of the cleaned type, carries
    the organization's string id and the support URL of the realm as it
    was at the start, and names the requester and the requester's
    role. *)
Theorem sponsorship_email_describes_request
    request user ot web desc etu puc pud w response w' :
  sponsorship_view ext request user ot web desc etu puc pud w
  = (Return response, w') →
  ∃ cleaned m,
    cleaned_data
      (SponsorshipRequestForm ext
         (<["organization_type" := ot]> (POST request))) = Some cleaned
    ∧ emails (trace w') = emails (trace w) ++ [m]
    ∧ ctx_organization_type (email_context m)
      = get_org_type_display_name ext (cd_organization_type cleaned)
    ∧ ctx_string_id (email_context m) = string_id (realm_obj w)
    ∧ ctx_support_url (email_context m) = get_support_url ext (realm_obj w)
    ∧ ctx_requested_by (email_context m) = full_name user
    ∧ ctx_user_role (email_context m) = get_role_name ext user
    ∧ from_name m = "Zulip sponsorship"
    ∧ from_address m = tokenized_no_reply_address ext.
Proof.
  destruct (cleaned_data (SponsorshipRequestForm ext _)) as [cleaned|] eqn:Hc.
  - rewrite (sponsorship_view_valid _ _ _ _ _ _ _ _ _ _ _ Hc). unfold atomic.
    destruct (sponsorship_transaction _ _ _ _ _) as [[name|e] w2] eqn:Htx;
      [|done].
    cbn. destruct (send_email_outcome ext _); [done|].
    intros; simplify_eq.
    pose proof (transaction_trace _ _ _ _ _ _ _ Htx) as [Hmail _].
    apply transaction_returns in Htx as (_ & -> & Hobj).
    cbn in Hmail, Hobj.
    eexists cleaned, _. split; [done|]. split.
    { cbn. unfold emails in *. rewrite !omap_app, Hmail, omap_app. cbn.
      by rewrite !app_nil_r. }
    cbn. rewrite Hobj. done.
  - unfold sponsorship_view. unfold_monad. cbn. rewrite Hc. done.
Qed.

(** X18.  A run of [sponsorship] sends no message when the form is not
    valid and none when the block under [transaction.atomic()] raises;
    when the block returns, it sends exactly one message, as its next
    and last call.  So no run sends more than one. *)
Theorem sponsorship_email_only_after_transaction
    request user ot web desc etu puc pud w :
  let form :=
    SponsorshipRequestForm ext (<["organization_type" := ot]> (POST request))
  in
  let w' := snd (sponsorship_view ext request user ot web desc etu puc pud w)
  in
  (cleaned_data form = None → emails (trace w') = emails (trace w))
  ∧ (∀ cleaned e,
       cleaned_data form = Some cleaned →
       fst (atomic (sponsorship_transaction ext user (mkSession user) cleaned)
              w) = Raise e →
       emails (trace w') = emails (trace w))
  ∧ (∀ cleaned name w1,
       cleaned_data form = Some cleaned →
       atomic (sponsorship_transaction ext user (mkSession user) cleaned) w
       = (Return name, w1) →
       ∃ m, trace w' = trace w1 ++ [EvSendEmail m]
            ∧ emails (trace w1) = emails (trace w)
            ∧ emails (trace w') = emails (trace w) ++ [m]).
Proof.
  intros form w'. subst w'. split; [|split].
  - intros Hc. unfold sponsorship_view. unfold_monad. cbn. fold form.
    by rewrite Hc.
  - intros cleaned e Hc Hfail.
    rewrite (sponsorship_view_valid _ _ _ _ _ _ _ _ _ _ _ Hc).
    revert Hfail. unfold atomic.
    destruct (sponsorship_transaction _ _ _ _ _) as [[name|e'] w2] eqn:Htx;
      [done|].
    intros _. cbn.
    pose proof (transaction_trace _ _ _ _ _ _ _ Htx) as [Hmail _].
    cbn in Hmail. unfold emails in *. rewrite !omap_app, Hmail, omap_app.
    cbn. by rewrite !app_nil_r.
  - intros cleaned name w1 Hc Hret.
    rewrite (sponsorship_view_valid _ _ _ _ _ _ _ _ _ _ _ Hc), Hret.
    revert Hret. unfold atomic.
    destruct (sponsorship_transaction _ _ _ _ _) as [[name'|e'] w2] eqn:Htx;
      [|done].
    intros [= <- <-].
    pose proof (transaction_trace _ _ _ _ _ _ _ Htx) as [Hmail _].
    cbn in Hmail.
    assert (He : emails (trace (emit EvAtomicCommit w2)) = emails (trace w)).
    { cbn. unfold emails in *. rewrite !omap_app, Hmail, omap_app. cbn.
      by rewrite !app_nil_r. }
    eexists. destruct (send_email_outcome ext _); cbn;
      (split; [reflexivity|]); (split; [exact He|]);
      cbn in He; unfold emails in *; rewrite omap_app, He; done.
Qed.

(** X19.  When the store refuses the request row, nothing after
    [sponsorship_request.save()] runs: the transaction is rolled back
    right away, the realm is not saved, no collaborator is called, no
    message is sent, and store and [user.realm] are what they were. *)
Theorem sponsorship_refused_row_stops_the_run
    request user ot web desc etu puc pud w cleaned :
  cleaned_data
    (SponsorshipRequestForm ext (<["organization_type" := ot]> (POST request)))
  = Some cleaned →
  store_accepts_request ext
    (new_sponsorship_request (realm_obj w) user cleaned) = false →
  ∃ e w',
    sponsorship_view ext request user ot web desc etu puc pud w = (Raise e, w')
    ∧ trace w'
      = trace w
        ++ [EvAtomicEnter;
            EvSaveSponsorshipRequest
              (new_sponsorship_request (realm_obj w) user cleaned);
            EvAtomicRollback]
    ∧ db w' = db w
    ∧ realm_obj w' = realm_obj w.
Proof.
  intros Hc Hrefuse.
  rewrite (sponsorship_view_valid _ _ _ _ _ _ _ _ _ _ _ Hc).
  unfold atomic, sponsorship_transaction, save_sponsorship_request.
  unfold_monad. cbn. rewrite Hrefuse. cbn.
  eexists _, _. split; [reflexivity|]. cbn.
  rewrite <- !app_assoc. done.
Qed.

(** X20.  A request that lacks one of the six variables of
    [sponsorship] is rejected for a variable it lacks, before the body
    runs: the world is unchanged. *)
Theorem sponsorship_missing_variable_rejected request user w name :
  name ∈ ["organization-type"; "website"; "description";
          "expected_total_users"; "paid_users_count";
          "paid_users_description"] →
  request_var request name = None →
  ∃ missing,
    request_var request missing = None
    ∧ sponsorship ext request user w
      = (Raise (ValidationError missing MissingVariable), w).
Proof.
  intros Hname Hnone.
  unfold sponsorship, REQ_required, no_validator. unfold_monad.
  destruct (request_var request "organization-type") eqn:H1; [|eauto].
  destruct (request_var request "website") eqn:H2; [|eauto].
  destruct (request_var request "description") eqn:H3; [|eauto].
  destruct (request_var request "expected_total_users") eqn:H4; [|eauto].
  destruct (request_var request "paid_users_count") eqn:H5; [|eauto].
  destruct (request_var request "paid_users_description") eqn:H6; [|eauto].
  repeat (apply elem_of_cons in Hname as [-> | Hname]; [congruence|]).
  by apply elem_of_nil in Hname.
Qed.

End SponsorshipFurther.

(* ===================================================================== *)
(** * The further properties on concrete requests *)
(* ===================================================================== *)

Lemma upgrade_success_witness :
  ∃ w',
    upgrade_view Demo.settings Demo.healthy Demo.iago
      "charge_automatically" "monthly" "7:signature" "salt" false None None
      Demo.world
    = (Return (json_success [("status", "ok")]), w')
    ∧ trace w'
      = trace Demo.world
        ++ [EvDoUpgrade 5
              (mkUpgradeRequest "charge_automatically" "monthly"
                 "7:signature" "salt" false None None)]
    ∧ log_records (trace w') = log_records (trace Demo.world)
    ∧ db w' = Demo.store
    ∧ realm_obj w' = realm_obj Demo.world.
Proof.
  apply (upgrade_success_returns_backend_data Demo.settings Demo.healthy
           Demo.iago "charge_automatically" "monthly" "7:signature" "salt"
           false None None Demo.world [("status", "ok")] Demo.store).
  reflexivity.
Defined.

Lemma upgrade_view_raises_witness :
  is_billing_error
    (BillingError "uncaught exception during upgrade"
       "Something went wrong. Please contact admin@zulip.example.") = true.
Proof.
  apply (upgrade_view_raises_only_billing_error Demo.settings
           Demo.backend_breaks Demo.iago "charge_automatically" "monthly"
           "7:signature" "salt" false None None Demo.world).
  vm_compute. reflexivity.
Defined.

Lemma upgrade_defaults_witness :
  upgrade Demo.settings Demo.healthy (Demo.post Demo.upgrade_form)
    Demo.iago Demo.world
  = upgrade_view Demo.settings Demo.healthy Demo.iago
      "charge_automatically" "monthly" "7:signature" "salt" false None None
      Demo.world.
Proof.
  apply upgrade_optional_variables_default;
    try (vm_compute; reflexivity).
  - by left.
  - by left.
Defined.

Lemma upgrade_raises_witness :
  (∃ var_name fault,
     ValidationError "schedule" InvalidValue = ValidationError var_name fault
     ∧ Demo.world = Demo.world)
  ∨ is_billing_error (ValidationError "schedule" InvalidValue) = true.
Proof.
  apply (upgrade_raises_validation_or_billing Demo.settings Demo.healthy
           (Demo.post (<["schedule" := "weekly"]> Demo.upgrade_form))
           Demo.iago Demo.world).
  vm_compute. reflexivity.
Defined.

Lemma upgrade_page_seat_count_witness :
  ∃ context,
    fst (initial_upgrade Demo.settings Demo.healthy Demo.iago false false
           Demo.world)
    = Return (render "corporate/upgrade.html" (Some context) 200)
    ∧ uc_seat_count context = 7
    ∧ pp_seat_count (page_params context) = uc_seat_count context
    ∧ (uc_signed_seat_count context, uc_salt context)
      = ("7:signature", "salt").
Proof.
  eexists. split; [vm_compute; reflexivity|].
  apply (upgrade_page_signs_shown_seat_count Demo.settings Demo.healthy
           Demo.iago false false Demo.world).
  vm_compute. reflexivity.
Defined.

Lemma upgrade_page_min_licenses_witness :
  ∃ context,
    fst (initial_upgrade Demo.settings Demo.healthy Demo.iago false false
           Demo.world)
    = Return (render "corporate/upgrade.html" (Some context) 200)
    ∧ uc_seat_count context ≤ min_invoiced_licenses context
    ∧ 30 ≤ min_invoiced_licenses context
    ∧ (min_invoiced_licenses context = uc_seat_count context
       ∨ min_invoiced_licenses context = 30).
Proof.
  eexists. split; [vm_compute; reflexivity|].
  apply (upgrade_page_min_invoiced_licenses Demo.settings Demo.healthy
           Demo.iago false false Demo.world).
  vm_compute. reflexivity.
Defined.

Lemma upgrade_page_discount_witness :
  ∃ context,
    fst (initial_upgrade Demo.settings Demo.healthy Demo.iago false false
           Demo.world_discount)
    = Return (render "corporate/upgrade.html" (Some context) 200)
    ∧ percent_off (page_params context) = Demo.binary64 (25 # 1)
    ∧ uc_exempt_from_license_number_check context = true.
Proof.
  eexists. split; [vm_compute; reflexivity|].
  destruct (upgrade_page_discount Demo.settings Demo.healthy Demo.iago
              false false Demo.world_discount _ eq_refl) as [_ Hsome].
  destruct (Hsome _ eq_refl) as (Hexempt & _ & Hoff).
  split; [exact (Hoff _ eq_refl) | exact Hexempt].
Defined.

(** A discount of 25 percent is shown as it is; one of 33.3333 percent
    is shown as the float nearest to it, which is another number. *)
Example discount_is_shown_as_float :
  Demo.binary64 (25 # 1) = (25 # 1)%Q
  ∧ Demo.binary64 (333333 # 10000)
    = (4691244920594655 # 140737488355328)%Q
  ∧ ¬ (Demo.binary64 (333333 # 10000) == 333333 # 10000)%Q
  ∧ ∃ context,
      fst (initial_upgrade Demo.settings Demo.healthy Demo.iago false false
             Demo.world_thirds)
      = Return (render "corporate/upgrade.html" (Some context) 200)
      ∧ percent_off (page_params context)
        = (4691244920594655 # 140737488355328)%Q.
Proof.
  split; [vm_compute; reflexivity|].
  split; [vm_compute; reflexivity|].
  split; [vm_compute; discriminate|].
  eexists. split; vm_compute; reflexivity.
Defined.

Lemma upgrade_page_only_without_plan_witness :
  BILLING_ENABLED Demo.settings = true
  ∧ is_guest Demo.iago = false
  ∧ plan_type (realm_obj Demo.world_discount)
    ≠ PLAN_TYPE_STANDARD_FREE Demo.healthy
  ∧ ∀ c, get_customer_by_realm Demo.healthy (db Demo.world_discount)
           (realm_obj Demo.world_discount) = Some c →
      sponsorship_pending c = false
      ∧ get_current_plan_by_customer Demo.healthy (db Demo.world_discount) c
        = None
      ∧ false = false.
Proof.
  eapply (upgrade_page_only_without_plan Demo.settings Demo.healthy
            Demo.iago false false Demo.world_discount).
  vm_compute. reflexivity.
Defined.

Lemma sponsorship_blank_description_witness :
  let request := Demo.post (<["description" := "  "]> Demo.sponsorship_form) in
  let form :=
    SponsorshipRequestForm Demo.healthy
      (<["organization_type" := "20"]> (POST request)) in
  ("description", [msg_required]) ∈ errors form
  ∧ sponsorship_view Demo.healthy request Demo.iago "20" "  zulip.org "
      "  " "10" "0" "" Demo.world
    = (Raise (BillingError "Form validation error" (combined_message form)),
       Demo.world)
  ∧ substring msg_required (combined_message form).
Proof.
  intros request form.
  apply (sponsorship_required_text_blank Demo.healthy request Demo.iago
           "20" "  zulip.org " "  " "10" "0" "" Demo.world "description").
  - by left.
  - right. right. exists "  ". split; vm_compute; reflexivity.
Defined.

Lemma sponsorship_organization_type_witness :
  let form :=
    SponsorshipRequestForm Demo.healthy
      (<["organization_type" := "twenty"]>
         (POST (Demo.post Demo.sponsorship_form))) in
  f_organization_type form = Errors [msg_invalid_integer]
  ∧ sponsorship_view Demo.healthy (Demo.post Demo.sponsorship_form)
      Demo.iago "twenty" "  zulip.org " "A chat project" "10" "0" ""
      Demo.world
    = (Raise (BillingError "Form validation error" (combined_message form)),
       Demo.world)
  ∧ substring msg_invalid_integer (combined_message form).
Proof.
  intros form.
  apply (sponsorship_organization_type_not_a_number Demo.healthy
           (Demo.post Demo.sponsorship_form) Demo.iago "twenty"
           "  zulip.org " "A chat project" "10" "0" "" Demo.world).
  left. vm_compute. reflexivity.
Defined.

Lemma cleaned_data_within_limits_witness :
  cd_description Demo.cleaned_form ≠ ""
  ∧ cd_expected_total_users Demo.cleaned_form ≠ ""
  ∧ cd_paid_users_count Demo.cleaned_form ≠ ""
  ∧ (cd_website Demo.cleaned_form = ""
     ∨ url_validator Demo.healthy (cd_website Demo.cleaned_form) = true)
  ∧ (py_len (cd_website Demo.cleaned_form)
     ≤ MAX_ORG_URL_LENGTH Demo.healthy)%nat
  ∧ has_null_character (cd_website Demo.cleaned_form) = false
  ∧ has_null_character (cd_description Demo.cleaned_form) = false
  ∧ has_null_character (cd_expected_total_users Demo.cleaned_form) = false
  ∧ has_null_character (cd_paid_users_count Demo.cleaned_form) = false
  ∧ has_null_character (cd_paid_users_description Demo.cleaned_form) = false.
Proof.
  apply (cleaned_data_within_limits Demo.healthy
           (<["organization_type" := "20"]> Demo.sponsorship_form)).
  vm_compute. reflexivity.
Defined.

Lemma sponsorship_website_too_long_witness :
  let request :=
    Demo.post (<["website" := Demo.long_website]> Demo.sponsorship_form) in
  let form :=
    SponsorshipRequestForm Demo.healthy
      (<["organization_type" := "20"]> (POST request)) in
  msg_max_length 200 311 ∈ error_list (f_website form)
  ∧ sponsorship_view Demo.healthy request Demo.iago "20" Demo.long_website
      "A chat project" "10" "0" "" Demo.world
    = (Raise (BillingError "Form validation error" (combined_message form)),
       Demo.world)
  ∧ substring (msg_max_length 200 311) (combined_message form).
Proof.
  intros request form.
  apply (sponsorship_website_too_long Demo.healthy request Demo.iago "20"
           Demo.long_website "A chat project" "10" "0" "" Demo.world
           Demo.long_website).
  - vm_compute. reflexivity.
  - apply Nat.ltb_lt. vm_compute. reflexivity.
Defined.

(** The text of that complaint. *)
Example website_too_long_message :
  msg_max_length 200 311
  = "Ensure this value has at most 200 characters (it has 311).".
Proof. vm_compute. reflexivity. Qed.

(** The limit counts characters: an address of 200 characters is
    accepted although it takes 300 bytes. *)
Example website_of_200_characters_accepted :
  py_len Demo.accented_website = 200%nat
  ∧ String.length Demo.accented_website = 300%nat
  ∧ f_website
      (SponsorshipRequestForm Demo.healthy
         (<["website" := Demo.accented_website]> Demo.sponsorship_form))
    = Clean Demo.accented_website.
Proof. vm_compute. done. Qed.

Lemma sponsorship_message_not_empty_witness :
  ∃ message,
    fst (sponsorship_view Demo.healthy
           (Demo.post (<["description" := "  "]> Demo.sponsorship_form))
           Demo.iago "twenty" "  zulip.org " "  " "10" "0" "" Demo.world)
    = Raise (BillingError "Form validation error" message)
    ∧ message ≠ "".
Proof.
  apply sponsorship_invalid_form_message_not_empty.
  vm_compute. reflexivity.
Defined.

Lemma sponsorship_call_order_witness :
  ∃ cleaned m,
    cleaned_data
      (SponsorshipRequestForm Demo.healthy
         (<["organization_type" := "20"]>
            (POST (Demo.post Demo.sponsorship_form)))) = Some cleaned
    ∧ json_success [] = json_success []
    ∧ trace (snd (sponsorship_view Demo.healthy
                    (Demo.post Demo.sponsorship_form) Demo.iago "20"
                    "  zulip.org " "A chat project" "10" "0" ""
                    Demo.world))
      = trace Demo.world
        ++ [EvAtomicEnter;
            EvSaveSponsorshipRequest
              (new_sponsorship_request (realm_obj Demo.world) Demo.iago
                 cleaned)]
        ++ (if org_type (realm_obj Demo.world)
               =? cd_organization_type cleaned
            then []
            else [EvSaveRealm (realm_id (realm_obj Demo.world))
                    ["org_type"]])
        ++ [EvUpdateCustomerSponsorshipStatus 5 true;
            EvMakeUserBillingAdmin 5;
            EvAtomicCommit;
            EvSendEmail m].
Proof.
  apply (sponsorship_success_call_order Demo.healthy
           (Demo.post Demo.sponsorship_form) Demo.iago "20" "  zulip.org "
           "A chat project" "10" "0" "" Demo.world (json_success [])).
  vm_compute. reflexivity.
Defined.

Lemma sponsorship_realm_object_witness :
  ∃ cleaned,
    cleaned_data
      (SponsorshipRequestForm Demo.healthy
         (<["organization_type" := "20"]>
            (POST (Demo.post Demo.sponsorship_form)))) = Some cleaned
    ∧ org_type
        (realm_obj (snd (sponsorship_view Demo.healthy
                           (Demo.post Demo.sponsorship_form) Demo.iago "20"
                           "  zulip.org " "A chat project" "10" "0" ""
                           Demo.world)))
      = 20.
Proof.
  destruct (sponsorship_success_realm_object Demo.healthy
              (Demo.post Demo.sponsorship_form) Demo.iago "20"
              "  zulip.org " "A chat project" "10" "0" "" Demo.world
              (json_success [])
              (snd (sponsorship_view Demo.healthy
                      (Demo.post Demo.sponsorship_form) Demo.iago "20"
                      "  zulip.org " "A chat project" "10" "0" ""
                      Demo.world)))
    as (cleaned & Hc & Hobj & _); [vm_compute; reflexivity|].
  exists cleaned. split; [exact Hc|]. rewrite Hobj.
  vm_compute in Hc. by injection Hc as <-.
Defined.

Lemma sponsorship_email_describes_witness :
  ∃ m,
    emails (trace (snd (sponsorship_view Demo.healthy
                          (Demo.post Demo.sponsorship_form) Demo.iago "20"
                          "  zulip.org " "A chat project" "10" "0" ""
                          Demo.world)))
    = emails (trace Demo.world) ++ [m]
    ∧ ctx_organization_type (email_context m) = "Open-source project"
    ∧ ctx_string_id (email_context m) = "acme"
    ∧ ctx_requested_by (email_context m) = "Iago".
Proof.
  destruct (sponsorship_email_describes_request Demo.healthy
              (Demo.post Demo.sponsorship_form) Demo.iago "20"
              "  zulip.org " "A chat project" "10" "0" "" Demo.world
              (json_success [])
              (snd (sponsorship_view Demo.healthy
                      (Demo.post Demo.sponsorship_form) Demo.iago "20"
                      "  zulip.org " "A chat project" "10" "0" ""
                      Demo.world)))
    as (cleaned & m & Hc & Hmail & Htype & Hid & _ & Hby & _);
    [vm_compute; reflexivity|].
  exists m. split; [exact Hmail|]. split; [|split; [exact Hid | exact Hby]].
  rewrite Htype. vm_compute in Hc. by injection Hc as <-.
Defined.

Lemma sponsorship_refused_row_witness :
  ∃ e w',
    sponsorship_view Demo.store_refuses (Demo.post Demo.sponsorship_form)
      Demo.iago "20" "  zulip.org " "A chat project" "10" "0" "" Demo.world
    = (Raise e, w')
    ∧ trace w'
      = trace Demo.world
        ++ [EvAtomicEnter;
            EvSaveSponsorshipRequest
              (new_sponsorship_request (realm_obj Demo.world) Demo.iago
                 Demo.cleaned_form);
            EvAtomicRollback]
    ∧ db w' = db Demo.world
    ∧ realm_obj w' = realm_obj Demo.world.
Proof.
  apply (sponsorship_refused_row_stops_the_run Demo.store_refuses
           (Demo.post Demo.sponsorship_form) Demo.iago "20" "  zulip.org "
           "A chat project" "10" "0" "" Demo.world Demo.cleaned_form);
    vm_compute; reflexivity.
Defined.

Lemma sponsorship_missing_variable_witness :
  ∃ missing,
    request_var (Demo.post (delete "description" Demo.sponsorship_form))
      missing = None
    ∧ sponsorship Demo.healthy
        (Demo.post (delete "description" Demo.sponsorship_form))
        Demo.iago Demo.world
      = (Raise (ValidationError missing MissingVariable), Demo.world).
Proof.
  apply (sponsorship_missing_variable_rejected Demo.healthy
           (Demo.post (delete "description" Demo.sponsorship_form))
           Demo.iago Demo.world "description").
  - do 2 right. by left.
  - vm_compute. reflexivity.
Defined.

Lemma sponsorship_no_email_witness :
  emails
    (trace (snd (sponsorship_view Demo.grant_fails
                   (Demo.post Demo.sponsorship_form) Demo.iago "20"
                   "  zulip.org " "A chat project" "10" "0" ""
                   Demo.world)))
  = emails (trace Demo.world).
Proof.
  destruct (sponsorship_email_only_after_transaction Demo.grant_fails
              (Demo.post Demo.sponsorship_form) Demo.iago "20"
              "  zulip.org " "A chat project" "10" "0" "" Demo.world)
    as (_ & Hfail & _).
  apply (Hfail Demo.cleaned_form (OtherException "permission grant failed"));
    vm_compute; reflexivity.
Defined.

Lemma sponsorship_mail_failure_witness :
  ∃ w',
    sponsorship_view Demo.mail_fails (Demo.post Demo.sponsorship_form)
      Demo.iago "20" "  zulip.org " "A chat project" "10" "0" "" Demo.world
    = (Raise (OtherException "mail server unreachable"), w')
    ∧ db w'
      = db (snd (atomic
                   (sponsorship_transaction Demo.mail_fails Demo.iago
                      (mkSession Demo.iago) Demo.cleaned_form)
                   Demo.world)).
Proof.
  apply (sponsorship_mail_failure_keeps_commit Demo.mail_fails
           (Demo.post Demo.sponsorship_form) Demo.iago "20" "  zulip.org "
           "A chat project" "10" "0" "" Demo.world Demo.cleaned_form
           "Open-source project").
  - vm_compute. reflexivity.
  - vm_compute. reflexivity.
  - intros m. reflexivity.
Defined.

(** After the mail system has failed, the request row is in the store. *)
Example mail_failure_leaves_row :
  length
    (sponsorship_requests
       (db (snd (sponsorship_view Demo.mail_fails
                   (Demo.post Demo.sponsorship_form) Demo.iago "20"
                   "  zulip.org " "A chat project" "10" "0" ""
                   Demo.world))))
  = 1%nat.
Proof. vm_compute. reflexivity. Qed.
